(** * setup_remote.py: the command runner and the provisioning sequence

    A shallow embedding of [src/setup_remote.py].  Python text is a list of
    Unicode code points, the bytes read from a remote channel are a list of
    [byte], Python integers are [Z].  The script's effects (what it prints,
    which operations it invokes on the SSH client) are threaded through an
    explicit state; raised exceptions are an outcome of a computation.

    What the embedding takes from outside the script.  The text methods
    ([strip], [split], [join], slicing, [str] of an integer) and the UTF-8
    decoder follow the Python runtime.  The remote host is a parameter: it
    decides whether [connect] and each [exec_command] return or raise, and
    what a channel yields.  The standard output of the process is a parameter
    too: [print] raises the encoding error of a text it cannot encode.  The
    failures of the SSH library are exceptions of classes under [Exception];
    [set_missing_host_key_policy] and [close] do not fail. *)

From Stdlib Require Import String Ascii Strings.Byte DecimalString.
From Stdlib Require Import NArith ZArith Lia Bool List.
Import ListNotations.

Set Implicit Arguments.

(** ** Python text *)

(** A character is its code point ([ord c]); a [str] is the list of them. *)
Definition char := N.
Definition str := list char.
Definition bytes := list byte.

(** A literal of the source, written as a Rocq string (the literals of the
    script are all ASCII). *)
Definition py (s : string) : str :=
  map (fun a => N_of_ascii a) (list_ascii_of_string s).

Definition LF : char := 10%N.
Definition CR : char := 13%N.
Definition TAB : char := 9%N.

(** [c in s] for a one-character [c]. *)
Definition char_in (c : char) (s : str) : bool := existsb (N.eqb c) s.

(** [str.isspace] on one character: the code points Python treats as
    whitespace. *)
Definition isspace (c : char) : bool :=
  ((9 <=? c) && (c <=? 13) || (28 <=? c) && (c <=? 32)
   || (c =? 133) || (c =? 160) || (c =? 5760)
   || (8192 <=? c) && (c <=? 8202)
   || (c =? 8232) || (c =? 8233) || (c =? 8239) || (c =? 8287)
   || (c =? 12288))%N.

Fixpoint lstrip (s : str) : str :=
  match s with
  | [] => []
  | c :: s' => if isspace c then lstrip s' else s
  end.

Definition rstrip (s : str) : str := rev (lstrip (rev s)).

(** [s.strip()] *)
Definition strip (s : str) : str := rstrip (lstrip s).

(** [s.split(sep)] for a one-character separator: one field more than there
    are separators, so the empty text gives one empty field. *)
Fixpoint split (sep : char) (s : str) : list str :=
  match s with
  | [] => [[]]
  | c :: s' =>
      if (c =? sep)%N then [] :: split sep s'
      else match split sep s' with
           | l :: ls => (c :: l) :: ls
           | [] => [[c]]
           end
  end.

(** [sep.join(l)] *)
Fixpoint join (sep : str) (l : list str) : str :=
  match l with
  | [] => []
  | [x] => x
  | x :: l' => x ++ sep ++ join sep l'
  end.

(** [len(l)] *)
Definition len {A} (l : list A) : Z := Z.of_nat (length l).

(** [l[i:]], with Python's reading of a negative or too large index. *)
Definition slice_from {A} (i : Z) (l : list A) : list A :=
  let start := if (i <? 0)%Z then Z.max (len l + i) 0 else Z.min i (len l) in
  skipn (Z.to_nat start) l.

(** [str(n)] for an integer, as an f-string formats it. *)
Definition str_of_int (n : Z) : str := py (NilZero.string_of_int (Z.to_int n)).

(** [s * n] *)
Definition str_mul (s : str) (n : Z) : str := concat (repeat s (Z.to_nat n)).

(** A text is true in a condition when it is not empty. *)
Definition truthy (s : str) : bool :=
  match s with [] => false | _ :: _ => true end.

(** ** [bytes.decode('utf-8', errors='replace')] *)

(** The decoder reads one code point at a time; where the bytes are not
    well-formed UTF-8 it reports the longest ill-formed prefix as one
    malformed unit (a truncated sequence at the end of the input is one unit
    as a whole). *)
Inductive decoded : Type :=
| CodePoint (c : char)
| Malformed.

Definition is_continuation_byte (b : N) : bool :=
  ((128 <=? b) && (b <? 192))%N.

Fixpoint utf8_decode (bs : bytes) : list decoded :=
  match bs with
  | [] => []
  | b0 :: r0 =>
    let ch := Byte.to_N b0 in
    if (ch <? 128)%N then CodePoint ch :: utf8_decode r0
    else if (ch <? 224)%N then
      if (ch <? 194)%N then Malformed :: utf8_decode r0
      else
        match r0 with
        | [] => [Malformed]
        | b1 :: r1 =>
          let ch2 := Byte.to_N b1 in
          if negb (is_continuation_byte ch2) then Malformed :: utf8_decode r0
          else CodePoint (N.shiftl ch 6 + ch2 - (N.shiftl 192 6 + 128))%N
                 :: utf8_decode r1
        end
    else if (ch <? 240)%N then
      match r0 with
      | [] => [Malformed]
      | b1 :: r1 =>
        let ch2 := Byte.to_N b1 in
        if negb (is_continuation_byte ch2)
           || (if (ch2 <? 160)%N then (ch =? 224)%N else (ch =? 237)%N)
        then Malformed :: utf8_decode r0
        else
          match r1 with
          | [] => [Malformed]
          | b2 :: r2 =>
            let ch3 := Byte.to_N b2 in
            if negb (is_continuation_byte ch3) then Malformed :: utf8_decode r1
            else CodePoint (N.shiftl ch 12 + N.shiftl ch2 6 + ch3
                            - (N.shiftl 224 12 + N.shiftl 128 6 + 128))%N
                   :: utf8_decode r2
          end
      end
    else if (ch <? 245)%N then
      match r0 with
      | [] => [Malformed]
      | b1 :: r1 =>
        let ch2 := Byte.to_N b1 in
        if negb (is_continuation_byte ch2)
           || (if (ch2 <? 144)%N then (ch =? 240)%N else (ch =? 244)%N)
        then Malformed :: utf8_decode r0
        else
          match r1 with
          | [] => [Malformed]
          | b2 :: r2 =>
            let ch3 := Byte.to_N b2 in
            if negb (is_continuation_byte ch3) then Malformed :: utf8_decode r1
            else
              match r2 with
              | [] => [Malformed]
              | b3 :: r3 =>
                let ch4 := Byte.to_N b3 in
                if negb (is_continuation_byte ch4)
                then Malformed :: utf8_decode r2
                else CodePoint (N.shiftl ch 18 + N.shiftl ch2 12
                                + N.shiftl ch3 6 + ch4
                                - (N.shiftl 240 18 + N.shiftl 128 12
                                   + N.shiftl 128 6 + 128))%N
                       :: utf8_decode r3
              end
          end
      end
    else Malformed :: utf8_decode r0
  end.

(** U+FFFD, the replacement character. *)
Definition REPLACEMENT : char := 65533%N.

(** [errors='replace']: every malformed unit becomes one U+FFFD. *)
Definition replace_unit (d : decoded) : char :=
  match d with CodePoint c => c | Malformed => REPLACEMENT end.

Definition decode_replace (bs : bytes) : str := map replace_unit (utf8_decode bs).

(** The text without the malformed units (what [errors='ignore'] gives);
    only used to state what the displayed text is. *)
Definition well_formed_part (bs : bytes) : str :=
  flat_map (fun d => match d with CodePoint c => [c] | Malformed => [] end)
           (utf8_decode bs).

(** ** The character filter of [run_command] (line 19) *)

(** [''.join(c for c in output if ord(c) < 128 or c in '\n\r\t')] *)
Definition keep_char (c : char) : bool :=
  (c <? 128)%N || char_in c [LF; CR; TAB].

Definition clean_output (output : str) : str := filter keep_char output.

(** ** Effects *)

(** The operations the script invokes on the paramiko client, in the order
    of the calls. *)
Inductive ssh_event : Type :=
| SSHClient
| SetMissingHostKeyPolicy
| Connect (host username password : str) (timeout : Z)
| ExecCommand (command : str) (timeout : Z)
| Close.

(** What the process has done so far: the texts given to [print], one per
    call, and the calls made on the SSH client. *)
Record state : Type := {
  printed : list str;
  ssh_calls : list ssh_event
}.

Definition initial : state := {| printed := []; ssh_calls := [] |}.

(** [Exception msg] stands for an exception of a class under [Exception]
    whose [str()] is [msg]; [SystemExit] is what [sys.exit] raises and is not
    under [Exception]. *)
Inductive exn : Type :=
| Exception (msg : str)
| SystemExit (code : Z).

Inductive outcome (A : Type) : Type :=
| Normal (a : A)
| Raised (e : exn).
Arguments Normal {A} a.
Arguments Raised {A} e.

Definition M (A : Type) : Type := state -> outcome A * state.

Definition ret {A} (a : A) : M A := fun s => (Normal a, s).

Definition bind {A B} (m : M A) (k : A -> M B) : M B :=
  fun s =>
    match m s with
    | (Normal a, s1) => k a s1
    | (Raised e, s1) => (Raised e, s1)
    end.

Notation "x <- m ;; k" := (bind m (fun x => k))
  (at level 61, m at next level, right associativity).
Notation "m ;; k" := (bind m (fun _ => k))
  (at level 61, right associativity).

Definition raise {A} (e : exn) : M A := fun s => (Raised e, s).

(** The standard output of the process: which characters beyond ASCII its
    encoding has ([encodes]; the encodings of a terminal all agree with ASCII
    below 128), and the message of the [UnicodeEncodeError] raised for a text
    it cannot encode. *)
Record console : Type := {
  encodes : char -> bool;
  encode_error : str -> str
}.

Definition can_encode (out : console) (c : char) : bool :=
  (c <? 128)%N || encodes out c.

Definition encodable (out : console) (x : str) : bool :=
  forallb (can_encode out) x.

(** [print(x)]: the text is encoded as a whole before anything is written,
    so a text the standard output cannot encode raises and leaves nothing
    printed. *)
Definition print (out : console) (x : str) : M unit :=
  fun s =>
    if encodable out x then
      (Normal tt, {| printed := printed s ++ [x]; ssh_calls := ssh_calls s |})
    else (Raised (Exception (encode_error out x)), s).

(** [sys.exit(code)] *)
Definition sys_exit {A} (code : Z) : M A := raise (SystemExit code).

(** [try: m  except Exception as e: h e] *)
Definition try_except {A} (m : M A) (h : exn -> M A) : M A :=
  fun s =>
    match m s with
    | (Raised (Exception msg), s1) => h (Exception msg) s1
    | r => r
    end.

(** [try: m  except: h] *)
Definition try_except_all {A} (m : M A) (h : M A) : M A :=
  fun s =>
    match m s with
    | (Raised _, s1) => h s1
    | r => r
    end.

(** [try: m  finally: f] *)
Definition try_finally {A} (m : M A) (f : M unit) : M A :=
  fun s =>
    let (r, s1) := m s in
    match f s1 with
    | (Normal _, s2) => (r, s2)
    | (Raised e, s2) => (Raised e, s2)
    end.

(** [str(e)] *)
Definition str_of_exn (e : exn) : str :=
  match e with
  | Exception msg => msg
  | SystemExit code => str_of_int code
  end.

(** [l[i]] *)
Definition getitem (l : list str) (i : nat) : M str :=
  match nth_error l i with
  | Some x => ret x
  | None => raise (Exception (py "list index out of range"))
  end.

(** ** The remote side *)

(** What [exec_command] hands back: the exit status the channel reports and
    what reading each stream gives, the bytes or the message of the exception
    the read raises. *)
Record channel : Type := {
  recv_exit_status : Z;
  stdout : bytes + str;
  stderr : bytes + str
}.

(** The host the client talks to.  [connect_result] is [Some msg] when
    connecting raises; [exec_result] gives, after the calls made so far, the
    channel of a command or the message of the exception [exec_command]
    raises (a timeout, a lost connection). *)
Record remote : Type := {
  connect_result : str -> str -> str -> Z -> option str;
  exec_result : list ssh_event -> str -> Z -> channel + str
}.

Definition call (ev : ssh_event) : M unit :=
  fun s => (Normal tt, {| printed := printed s; ssh_calls := ssh_calls s ++ [ev] |}).

(** [paramiko.SSHClient()] and [ssh.set_missing_host_key_policy(...)] *)
Definition new_client : M unit := call SSHClient.
Definition set_missing_host_key_policy : M unit := call SetMissingHostKeyPolicy.

(** [ssh.connect(host, username=.., password=.., timeout=..)] *)
Definition connect (ssh : remote) (host username password : str) (timeout : Z)
  : M unit :=
  call (Connect host username password timeout) ;;
  match connect_result ssh host username password timeout with
  | None => ret tt
  | Some msg => raise (Exception msg)
  end.

(** [ssh.exec_command(command, timeout=timeout)] *)
Definition exec_command (ssh : remote) (command : str) (timeout : Z)
  : M channel :=
  fun s =>
    let s1 := {| printed := printed s;
                 ssh_calls := ssh_calls s ++ [ExecCommand command timeout] |} in
    match exec_result ssh (ssh_calls s) command timeout with
    | inl ch => (Normal ch, s1)
    | inr msg => (Raised (Exception msg), s1)
    end.

(** [ssh.close()] *)
Definition close : M unit := call Close.

(** [f.read()] on a stream of the channel. *)
Definition read (f : bytes + str) : M bytes :=
  match f with
  | inl b => ret b
  | inr msg => raise (Exception msg)
  end.

(** ** [run_command] *)

(** Lines 17-27: the output of the command, filtered and cut to its last 50
    lines. *)
Definition show_output (out : console) (ch : channel) : M unit :=
  try_except
    (raw <- read (stdout ch) ;;
     let output := decode_replace raw in
     let clean_output := clean_output output in
     if truthy (strip clean_output) then
       let lines := split LF (strip clean_output) in
       lines <- (if (len lines >? 50)%Z then
                   print out (py "... [" ++ str_of_int (len lines - 50)
                          ++ py " lines truncated] ...") ;;
                   ret (slice_from (-50) lines)
                 else ret lines) ;;
       print out (join [LF] lines)
     else ret tt)
    (fun e => print out (py "[Output encoding error: " ++ str_of_exn e ++ py "]")).

(** Lines 29-35: the standard error of a command that failed. *)
Definition show_error (out : console) (exit_status : Z) (ch : channel) : M unit :=
  if negb (exit_status =? 0)%Z then
    try_except_all
      (raw <- read (stderr ch) ;;
       let error := decode_replace raw in
       if truthy (strip error) then print out (py "Error: " ++ error) else ret tt)
      (ret tt)
  else ret tt.

Definition run_command (out : console) (ssh : remote) (command : str) (timeout : Z)
  : M Z :=
  print out (LF :: py ">>> " ++ command) ;;
  ch <- exec_command ssh command timeout ;;
  let exit_status := recv_exit_status ch in
  show_output out ch ;;
  show_error out exit_status ch ;;
  ret exit_status.

(** ** [main] *)

(** The provisioning steps of lines 62-101 (the body of the [try] after the
    connection is up); calls without a [timeout] use the default of 300. *)
Definition provision (out : console) (ssh : remote) (GITHUB_REPO : str) : M unit :=
  print out (LF :: py "[1/10] Updating system packages...") ;;
  run_command out ssh (py "apt update && DEBIAN_FRONTEND=noninteractive apt upgrade -y 2>&1 | tail -20") 600 ;;

  print out (LF :: py "[2/10] Installing Node.js 20.x...") ;;
  run_command out ssh (py "curl -fsSL https://deb.nodesource.com/setup_20.x | bash - 2>&1 | tail -5") 120 ;;
  run_command out ssh (py "apt install -y nodejs 2>&1 | tail -5") 120 ;;

  print out (LF :: py "[3/10] Installing build essentials...") ;;
  run_command out ssh (py "apt install -y build-essential python3 2>&1 | tail -5") 120 ;;

  print out (LF :: py "[4/10] Installing Git...") ;;
  run_command out ssh (py "apt install -y git 2>&1 | tail -3") 60 ;;

  print out (LF :: py "[5/10] Installing PM2...") ;;
  run_command out ssh (py "npm install -g pm2 2>&1 | tail -5") 120 ;;

  print out (LF :: py "[6/10] Installing Claude Code CLI...") ;;
  run_command out ssh (py "npm install -g @anthropic-ai/claude-code 2>&1 | tail -5") 180 ;;

  print out (LF :: py "[7/10] Installing Nginx...") ;;
  run_command out ssh (py "apt install -y nginx 2>&1 | tail -5") 120 ;;

  print out (LF :: py "[8/10] Cloning repository...") ;;
  run_command out ssh (py "mkdir -p /opt/claude-dev-hub/projects /opt/claude-dev-hub/data") 300 ;;
  run_command out ssh (py "rm -rf /opt/claude-dev-hub/app && git clone " ++ GITHUB_REPO
                   ++ py " /opt/claude-dev-hub/app 2>&1") 120 ;;

  print out (LF :: py "[9/10] Installing dependencies and building...") ;;
  run_command out ssh (py "cd /opt/claude-dev-hub/app && npm install 2>&1 | tail -10") 300 ;;
  run_command out ssh (py "cd /opt/claude-dev-hub/app && npm run build 2>&1 | tail -10") 300 ;;

  print out (LF :: py "[10/10] Configuring and starting services...") ;;
  run_command out ssh (py "cp /opt/claude-dev-hub/app/nginx.conf /etc/nginx/sites-available/claude-dev-hub") 300 ;;
  run_command out ssh (py "ln -sf /etc/nginx/sites-available/claude-dev-hub /etc/nginx/sites-enabled/") 300 ;;
  run_command out ssh (py "rm -f /etc/nginx/sites-enabled/default") 300 ;;
  run_command out ssh (py "nginx -t && systemctl restart nginx") 300 ;;
  run_command out ssh (py "cd /opt/claude-dev-hub/app && pm2 delete claude-dev-hub 2>/dev/null; pm2 start ecosystem.config.js 2>&1 | tail -5") 300 ;;
  run_command out ssh (py "pm2 save") 300 ;;

  print out (LF :: py "[Checking status...]") ;;
  run_command out ssh (py "curl -s http://localhost:3001/api/health") 300 ;;
  ret tt.

(** [main], with the standard output, the host behind the SSH client and
    [sys.argv] as arguments. *)
Definition main (out : console) (ssh : remote) (argv : list str) : M unit :=
  (if (len argv <? 5)%Z then
     print out (py "Usage: python setup_remote.py <host> <user> <password> <github_repo_url>") ;;
     print out (py "Example: python setup_remote.py 194.163.144.206 root mypassword https://github.com/user/repo.git") ;;
     sys_exit 1
   else ret tt) ;;

  HOST <- getitem argv 1 ;;
  USER <- getitem argv 2 ;;
  PASSWORD <- getitem argv 3 ;;
  GITHUB_REPO <- getitem argv 4 ;;

  print out (str_mul (py "=") 50) ;;
  print out (py "Claude Dev Hub - Remote Server Setup") ;;
  print out (str_mul (py "=") 50) ;;
  print out (LF :: py "Connecting to " ++ HOST ++ py "...") ;;

  new_client ;;
  set_missing_host_key_policy ;;

  try_finally
    (try_except
       (connect ssh HOST USER PASSWORD 30 ;;
        print out (py "Connected successfully!" ++ [LF]) ;;

        provision out ssh GITHUB_REPO ;;

        print out (LF :: str_mul (py "=") 50) ;;
        print out (py "SETUP COMPLETE!") ;;
        print out (str_mul (py "=") 50) ;;
        print out (LF :: py "Your Claude Dev Hub is running at: http://" ++ HOST) ;;
        print out (str_mul (py "=") 50))
       (fun e =>
          print out (LF :: py "Error: " ++ str_of_exn e) ;;
          sys_exit 1))
    close.

(** The status the interpreter exits with when the script is [main()]: that
    of [sys.exit], 1 for an exception nobody caught, 0 otherwise. *)
Definition exit_code (r : outcome unit) : Z :=
  match r with
  | Normal _ => 0
  | Raised (SystemExit code) => code
  | Raised (Exception _) => 1
  end.

(** The commands dispatched through [exec_command], in order. *)
Definition commands_of (evs : list ssh_event) : list str :=
  flat_map (fun ev => match ev with ExecCommand c _ => [c] | _ => [] end) evs.

(** ** Vocabulary of the statements *)

(** The printable ASCII characters, space to tilde. *)
Definition printable (c : char) : bool := ((32 <=? c) && (c <=? 126))%N.

(** A character of plain terminal text: printable ASCII, newline, carriage
    return or tab. *)
Definition plain_char (c : char) : bool := printable c || char_in c [LF; CR; TAB].

(** [m] returns [a], prints [outs] and touches nothing else, whatever the
    state it starts in. *)
Definition prints_only {A} (m : M A) (a : A) (outs : list str) : Prop :=
  forall s, m s = (Normal a, {| printed := printed s ++ outs;
                                ssh_calls := ssh_calls s |}).

(** The banner [run_command] prints for a command. *)
Definition banner (command : str) : str := LF :: py ">>> " ++ command.

(** The health-check request. *)
Definition health_check : str := py "curl -s http://localhost:3001/api/health".

(** The provisioning commands in the order of the steps 1 to 10 and the
    final status check, each with the timeout it is given. *)
Definition provisioning_order (GITHUB_REPO : str) : list (str * Z) :=
  [ (py "apt update && DEBIAN_FRONTEND=noninteractive apt upgrade -y 2>&1 | tail -20", 600);
    (py "curl -fsSL https://deb.nodesource.com/setup_20.x | bash - 2>&1 | tail -5", 120);
    (py "apt install -y nodejs 2>&1 | tail -5", 120);
    (py "apt install -y build-essential python3 2>&1 | tail -5", 120);
    (py "apt install -y git 2>&1 | tail -3", 60);
    (py "npm install -g pm2 2>&1 | tail -5", 120);
    (py "npm install -g @anthropic-ai/claude-code 2>&1 | tail -5", 180);
    (py "apt install -y nginx 2>&1 | tail -5", 120);
    (py "mkdir -p /opt/claude-dev-hub/projects /opt/claude-dev-hub/data", 300);
    (py "rm -rf /opt/claude-dev-hub/app && git clone " ++ GITHUB_REPO
       ++ py " /opt/claude-dev-hub/app 2>&1", 120);
    (py "cd /opt/claude-dev-hub/app && npm install 2>&1 | tail -10", 300);
    (py "cd /opt/claude-dev-hub/app && npm run build 2>&1 | tail -10", 300);
    (py "cp /opt/claude-dev-hub/app/nginx.conf /etc/nginx/sites-available/claude-dev-hub", 300);
    (py "ln -sf /etc/nginx/sites-available/claude-dev-hub /etc/nginx/sites-enabled/", 300);
    (py "rm -f /etc/nginx/sites-enabled/default", 300);
    (py "nginx -t && systemctl restart nginx", 300);
    (py "cd /opt/claude-dev-hub/app && pm2 delete claude-dev-hub 2>/dev/null; pm2 start ecosystem.config.js 2>&1 | tail -5", 300);
    (py "pm2 save", 300);
    (health_check, 300) ]%Z.

Definition exec_event (ct : str * Z) : ssh_event := ExecCommand (fst ct) (snd ct).

(** How [run_command] ends for a command given with its timeout, the client
    having seen [calls]: the status it returns or the exception it raises
    (what was printed before plays no part). *)
Definition outcome_of (out : console) (ssh : remote) (calls : list ssh_event)
           (ct : str * Z) : outcome Z :=
  fst (run_command out ssh (fst ct) (snd ct) {| printed := []; ssh_calls := calls |}).

(** In a run that dispatches the commands of [order] one after the other,
    the client having seen the calls [before], no command raises: each
    [run_command], after the ones that precede it, returns. *)
Definition run_dispatched (out : console) (ssh : remote)
           (before : list ssh_event) (order : list (str * Z)) : Prop :=
  forall k ct,
    nth_error order k = Some ct ->
    exists exit_status,
      outcome_of out ssh (before ++ map exec_event (firstn k order)) ct
      = Normal exit_status.

(** The diagnostic printed when reading standard output raises (line 27),
    and the error line of [main] (line 110). *)
Definition diagnostic (msg : str) : str := py "[Output encoding error: " ++ msg ++ py "]".
Definition error_line (msg : str) : str := LF :: py "Error: " ++ msg.

(** How lines 109-113 end a run whose [try] block raised an exception with
    message [msg], [p] being printed and [calls] made so far: the error line
    and [sys.exit(1)], or the encoding error of that line; [close] in both
    cases. *)
Definition aborted (out : console) (msg : str) (p : list str)
           (calls : list ssh_event) : outcome unit * state :=
  if encodable out (error_line msg) then
    (Raised (SystemExit 1),
     {| printed := p ++ [error_line msg]; ssh_calls := calls ++ [Close] |})
  else
    (Raised (Exception (encode_error out (error_line msg))),
     {| printed := p; ssh_calls := calls ++ [Close] |}).

(** Two standard outputs: UTF-8, which encodes everything but the
    surrogates, and Latin-1, which stops at 255. *)
Definition utf8 : console :=
  {| encodes := fun c => negb ((55296 <=? c) && (c <=? 57343))%N;
     encode_error := fun _ => py "'utf-8' codec can't encode: surrogates not allowed" |}.

Definition latin1 : console :=
  {| encodes := fun c => (c <? 256)%N;
     encode_error := fun _ => py "'latin-1' codec can't encode: ordinal not in range(256)" |}.

(** A host that accepts every connection and answers every command with
    the same channel; used to instantiate the statements. *)
Definition steady_host (ch : channel) : remote :=
  {| connect_result := fun _ _ _ _ => None;
     exec_result := fun _ _ _ => inl ch |}.

(** A host nobody can connect to. *)
Definition unreachable_host (msg : str) : remote :=
  {| connect_result := fun _ _ _ _ => Some msg;
     exec_result := fun _ _ _ => inr msg |}.

(** A host that accepts the connection and answers the first two commands,
    then drops: every later [exec_command] raises. *)
Definition dropping_host (ch : channel) (msg : str) : remote :=
  {| connect_result := fun _ _ _ _ => None;
     exec_result := fun calls _ _ =>
                      if length calls <? 5 then inl ch else inr msg |}.

(** Sample inputs. *)
Definition quiet : channel :=
  {| recv_exit_status := 0; stdout := inl []; stderr := inl [] |}.

Definition failing : channel :=
  {| recv_exit_status := 1; stdout := inl []; stderr := inl [x6e; x6f] |}.

Definition sample_argv : list str :=
  [py "setup_remote.py"; py "10.0.0.1"; py "root"; py "secret";
   py "https://github.com/user/repo.git"].

(** [n] lines of output, each ["x\n"]. *)
Definition x_lines (n : nat) : bytes := concat (repeat [x78; x0a] n).

Definition long_listing : channel :=
  {| recv_exit_status := 0; stdout := inl (x_lines 51); stderr := inl [] |}.

(** Whitespace around one non-ASCII letter: blank once filtered. *)
Definition blank_output : channel :=
  {| recv_exit_status := 0; stdout := inl [x20; xc3; xa9; x0a; x09];
     stderr := inl [] |}.


(** Exit status 3 and ["\u2717 failed\n"] in UTF-8 on standard error. *)
Definition crossed : channel :=
  {| recv_exit_status := 3; stdout := inl [];
     stderr := inl [xe2; x9c; x97; x20; x66; x61; x69; x6c; x65; x64; x0a] |}.

(** A channel whose standard output cannot be read. *)
Definition stalled : channel :=
  {| recv_exit_status := 0; stdout := inr (py "timed out"); stderr := inl [] |}.

(** One line of output, ["\nv20"], a check mark in UTF-8 and a newline. *)
Definition version_line : channel :=
  {| recv_exit_status := 0;
     stdout := inl [x0a; x76; x32; x30; xe2; x9c; x93; x0a];
     stderr := inl [] |}.

(** A text of ASCII characters only. *)
Definition ascii_text (s : str) : Prop := Forall (fun c => (c < 128)%N) s.

(** The value of each byte, as a text. *)
Definition byte_values (raw : bytes) : str := map Byte.to_N raw.

(* ================================================================== *)
(** * Properties *)

(** ** The character filter *)

Lemma keep_char_ascii (c : char) : keep_char c = (c <? 128)%N.
Proof.
  unfold keep_char, char_in, existsb, LF, CR, TAB.
  destruct (N.ltb_spec c 128) as [Hlt | Hge]; [reflexivity |].
  simpl.
  destruct (N.eqb_spec c 10); [lia |].
  destruct (N.eqb_spec c 13); [lia |].
  destruct (N.eqb_spec c 9); [lia | reflexivity].
Qed.

Lemma plain_char_keep (c : char) : plain_char c = true -> keep_char c = true.
Proof.
  rewrite keep_char_ascii. unfold plain_char, printable, char_in, existsb, LF, CR, TAB.
  intros H. apply N.ltb_lt.
  repeat (apply orb_true_iff in H; destruct H as [H | H]);
    try (apply andb_true_iff in H; destruct H as [_ H]; apply N.leb_le in H; lia);
    try (apply N.eqb_eq in H; lia); discriminate.
Qed.

Lemma filter_all {A} (f : A -> bool) (l : list A) :
  forallb f l = true -> filter f l = l.
Proof.
  induction l as [| x l IH]; simpl; [reflexivity |].
  intros H. apply andb_true_iff in H. destruct H as [Hx Hl].
  rewrite Hx, (IH Hl). reflexivity.
Qed.

(** C3: on a text made only of printable ASCII characters, newlines,
    carriage returns and tabs the character filter of [run_command] changes
    nothing. *)
Theorem clean_output_plain_identity (output : str) :
  forallb plain_char output = true -> clean_output output = output.
Proof.
  intros H. unfold clean_output. apply filter_all.
  rewrite forallb_forall in *. intros c Hc. apply plain_char_keep. auto.
Qed.

Lemma clean_output_plain_identity_witness :
  forallb plain_char (py "npm WARN deprecated") = true
  /\ clean_output (py "npm WARN deprecated") = py "npm WARN deprecated".
Proof.
  split; [reflexivity | apply clean_output_plain_identity; reflexivity].
Defined.

(** C2: the filter does not remove the ASCII control characters: ESC
    (0x1B), BEL (0x07), NUL and DEL pass through it, here inside a colour
    sequence as a remote tool prints it. *)
Theorem clean_output_keeps_control_characters :
  clean_output (decode_replace [x1b; x5b; x33; x31; x6d; x4f; x4b; x07; x00; x7f])
  = [27; 91; 51; 49; 109; 79; 75; 7; 0; 127]%N
  /\ printable 27%N = false /\ char_in 27%N [LF; CR; TAB] = false.
Proof. repeat split. Qed.

(** ** Decoding with replacement *)

Lemma clean_output_drops_malformed (l : list decoded) :
  filter keep_char (map replace_unit l)
  = filter keep_char
      (flat_map (fun d => match d with CodePoint c => [c] | Malformed => [] end) l).
Proof.
  induction l as [| d l IH]; [reflexivity |].
  destruct d as [c |]; simpl.
  - destruct (keep_char c); rewrite IH; reflexivity.
  - exact IH.
Qed.

(** C9: every malformed unit of the bytes read is decoded to U+FFFD; the
    filter keeps no U+FFFD, so the cleaned text is the cleaned text of the
    well-formed part alone. *)
Theorem undecodable_bytes_leave_no_trace (raw : bytes) :
  Forall2 (fun d c => match d with
                       | Malformed => c = REPLACEMENT
                       | CodePoint c' => c = c'
                       end)
          (utf8_decode raw) (decode_replace raw)
  /\ ~ In REPLACEMENT (clean_output (decode_replace raw))
  /\ clean_output (decode_replace raw) = clean_output (well_formed_part raw).
Proof.
  split; [| split].
  - unfold decode_replace.
    induction (utf8_decode raw) as [| d l IH]; simpl; constructor;
      [destruct d; reflexivity | exact IH].
  - unfold clean_output. intros Hin. apply filter_In in Hin.
    destruct Hin as [_ Hk]. discriminate Hk.
  - apply clean_output_drops_malformed.
Qed.

Example undecodable_bytes_example :
  decode_replace [x6f; x6b; xff; xe2; x82; x0a] = [111; 107; 65533; 65533; 10]%N
  /\ clean_output (decode_replace [x6f; x6b; xff; xe2; x82; x0a]) = [111; 107; 10]%N.
Proof. split; reflexivity. Qed.

(** ** Lines and their text *)

Lemma lstrip_blank (s : str) : forallb isspace s = true -> lstrip s = [].
Proof.
  induction s as [| c s IH]; simpl; [reflexivity |].
  intros H. apply andb_true_iff in H. destruct H as [Hc Hs].
  rewrite Hc. exact (IH Hs).
Qed.

Lemma strip_blank (s : str) : forallb isspace s = true -> strip s = [].
Proof. intros H. unfold strip. rewrite (lstrip_blank s H). reflexivity. Qed.

Lemma split_nonempty (sep : char) (s : str) : split sep s <> [].
Proof.
  destruct s as [| c s]; simpl; [discriminate |].
  destruct (c =? sep)%N; [discriminate |].
  destruct (split sep s); discriminate.
Qed.

Lemma many_lines_truthy (text : str) :
  (50 < len (split LF text))%Z -> truthy text = true.
Proof.
  destruct text; [| reflexivity].
  unfold len. simpl. lia.
Qed.

Lemma slice_last_50 {A} (l : list A) :
  (50 < len l)%Z -> slice_from (-50) l = skipn (length l - 50) l.
Proof.
  unfold slice_from, len. intros H.
  change (-50 <? 0)%Z with true. cbv iota.
  f_equal. lia.
Qed.

Lemma truthy_nonempty (s : str) : truthy s = true <-> s <> [].
Proof. destruct s; simpl; split; congruence. Qed.

Lemma join_cons (sep x : str) (l : list str) :
  l <> [] -> join sep (x :: l) = x ++ sep ++ join sep l.
Proof. destruct l; [congruence | reflexivity]. Qed.

Lemma join_split (sep : char) (s : str) : join [sep] (split sep s) = s.
Proof.
  induction s as [| c s IH]; [reflexivity |].
  simpl split. destruct (N.eqb_spec c sep) as [E | E].
  - subst c. rewrite join_cons by apply split_nonempty.
    rewrite IH. reflexivity.
  - destruct (split sep s) as [| l ls] eqn:Es;
      [exfalso; exact (split_nonempty sep s Es) |].
    rewrite <- IH. destruct ls; reflexivity.
Qed.

Lemma split_no_sep (sep : char) (s : str) :
  Forall (fun l => ~ In sep l) (split sep s).
Proof.
  induction s as [| c s IH]; simpl.
  - constructor; [intros [] | constructor].
  - destruct (N.eqb_spec c sep) as [E | E].
    + constructor; [intros [] | exact IH].
    + destruct (split sep s) as [| l ls]; [constructor; [| constructor] |].
      * intros [H | []]. congruence.
      * inversion IH as [| ? ? Hl Hls]; subst. constructor; [| exact Hls].
        intros [H | H]; [congruence | exact (Hl H)].
Qed.

Lemma split_line_then (sep : char) (x rest : str) :
  ~ In sep x -> split sep (x ++ sep :: rest) = x :: split sep rest.
Proof.
  induction x as [| c x IH]; intros Hx; simpl.
  - rewrite N.eqb_refl. reflexivity.
  - destruct (N.eqb_spec c sep) as [E | E]; [exfalso; apply Hx; left; auto |].
    rewrite IH by (intros H; apply Hx; right; exact H). reflexivity.
Qed.

Lemma split_one_line (sep : char) (x : str) : ~ In sep x -> split sep x = [x].
Proof.
  induction x as [| c x IH]; intros Hx; simpl; [reflexivity |].
  destruct (N.eqb_spec c sep) as [E | E]; [exfalso; apply Hx; left; auto |].
  rewrite IH by (intros H; apply Hx; right; exact H). reflexivity.
Qed.

Lemma split_join (sep : char) (l : list str) :
  l <> [] -> Forall (fun x => ~ In sep x) l -> split sep (join [sep] l) = l.
Proof.
  induction l as [| x l IH]; [congruence |].
  intros _ Hall. inversion Hall as [| ? ? Hx Hl]; subst.
  destruct l as [| y l].
  - simpl. apply split_one_line, Hx.
  - rewrite join_cons by discriminate.
    change (x ++ [sep] ++ join [sep] (y :: l))
      with (x ++ sep :: join [sep] (y :: l)).
    rewrite split_line_then by exact Hx.
    rewrite IH by (discriminate || exact Hl). reflexivity.
Qed.

Lemma join_app (sep : str) (l1 l2 : list str) :
  l1 <> [] -> l2 <> [] ->
  join sep (l1 ++ l2) = join sep l1 ++ sep ++ join sep l2.
Proof.
  induction l1 as [| x l1 IH]; [congruence |].
  intros _ H2. destruct l1 as [| y l1].
  - simpl app. rewrite join_cons by exact H2. reflexivity.
  - change ((x :: y :: l1) ++ l2) with (x :: (y :: l1) ++ l2).
    rewrite join_cons by discriminate.
    rewrite IH by (discriminate || exact H2).
    rewrite (@join_cons sep x (y :: l1)) by discriminate.
    rewrite <- !app_assoc. reflexivity.
Qed.

(** ** The filter, again *)

Lemma clean_output_ascii (output : str) : ascii_text (clean_output output).
Proof.
  unfold ascii_text, clean_output. apply Forall_forall. intros c Hc.
  apply filter_In in Hc. destruct Hc as [_ Hk].
  rewrite keep_char_ascii in Hk. apply N.ltb_lt. exact Hk.
Qed.

Lemma ascii_text_kept (s : str) : ascii_text s -> clean_output s = s.
Proof.
  intros H. unfold clean_output. apply filter_all. apply forallb_forall.
  intros c Hc. rewrite keep_char_ascii. apply N.ltb_lt.
  unfold ascii_text in H. rewrite Forall_forall in H. auto.
Qed.

(** X1: what the filter gives is ASCII only, the filter changes nothing
    the second time, and it works character by character: the filtered
    concatenation is the concatenation of the filtered parts. *)
Theorem clean_output_ascii_idempotent (a b : str) :
  ascii_text (clean_output a)
  /\ clean_output (clean_output a) = clean_output a
  /\ clean_output (a ++ b) = clean_output a ++ clean_output b.
Proof.
  split; [apply clean_output_ascii |].
  split; [apply ascii_text_kept, clean_output_ascii |].
  unfold clean_output. apply filter_app.
Qed.

Lemma decode_ascii_bytes (raw : bytes) :
  Forall (fun b => (Byte.to_N b < 128)%N) raw ->
  decode_replace raw = byte_values raw.
Proof.
  unfold decode_replace, byte_values.
  induction raw as [| b raw IH]; intros H; [reflexivity |].
  inversion H as [| ? ? Hb Hraw]; subst.
  apply N.ltb_lt in Hb. simpl. rewrite Hb. simpl. rewrite (IH Hraw).
  reflexivity.
Qed.

(** X2: bytes that are all below 0x80 go through decoding and the
    filter unchanged: the filtered text is the sequence of the byte
    values. *)
Theorem ascii_bytes_pass_unchanged (raw : bytes) :
  Forall (fun b => (Byte.to_N b < 128)%N) raw ->
  clean_output (decode_replace raw) = byte_values raw.
Proof.
  intros H. rewrite (decode_ascii_bytes H). apply ascii_text_kept.
  unfold ascii_text, byte_values. apply Forall_map. exact H.
Qed.

Lemma ascii_bytes_pass_unchanged_witness :
  Forall (fun b => (Byte.to_N b < 128)%N) [x6f; x6b; x1b; x0a]
  /\ clean_output (decode_replace [x6f; x6b; x1b; x0a]) = [111; 107; 27; 10]%N.
Proof.
  split; [repeat constructor |].
  apply (@ascii_bytes_pass_unchanged [x6f; x6b; x1b; x0a]).
  repeat constructor.
Defined.

(** ** ASCII texts *)

Lemma last_50_nonempty {A} (l : list A) :
  50 < length l -> skipn (length l - 50) l <> [].
Proof.
  intros H E. apply (f_equal (@length A)) in E.
  rewrite length_skipn in E. simpl in E. lia.
Qed.

Lemma Forall_skipn_keep {A} (P : A -> Prop) (n : nat) (l : list A) :
  Forall P l -> Forall P (skipn n l).
Proof.
  intros H. rewrite <- (firstn_skipn n l) in H.
  apply Forall_app in H. tauto.
Qed.

Lemma ascii_text_forallb (s : str) :
  forallb (fun c => (c <? 128)%N) s = true -> ascii_text s.
Proof.
  intros H. apply Forall_forall. intros c Hc.
  rewrite forallb_forall in H. apply N.ltb_lt. auto.
Qed.

Lemma ascii_text_app (a b : str) : ascii_text a -> ascii_text b -> ascii_text (a ++ b).
Proof. intros Ha Hb. apply Forall_app. auto. Qed.

Lemma ascii_text_lstrip (s : str) : ascii_text s -> ascii_text (lstrip s).
Proof.
  induction s as [| c s IH]; intros H; simpl; [constructor |].
  destruct (isspace c); [| exact H].
  inversion H; subst. auto.
Qed.

Lemma ascii_text_strip (s : str) : ascii_text s -> ascii_text (strip s).
Proof.
  intros H. unfold strip, rstrip, ascii_text.
  apply Forall_rev. apply ascii_text_lstrip. apply Forall_rev.
  apply ascii_text_lstrip. exact H.
Qed.

Lemma ascii_text_split (sep : char) (s : str) :
  ascii_text s -> Forall ascii_text (split sep s).
Proof.
  induction s as [| c s IH]; intros H; simpl.
  - repeat constructor.
  - inversion H as [| ? ? Hc Hs]; subst. specialize (IH Hs).
    destruct (c =? sep)%N; [constructor; [constructor | exact IH] |].
    destruct (split sep s) as [| l ls]; [repeat constructor; exact Hc |].
    inversion IH; subst. constructor; [constructor; assumption | assumption].
Qed.

Lemma ascii_text_join (sep : str) (l : list str) :
  ascii_text sep -> Forall ascii_text l -> ascii_text (join sep l).
Proof.
  intros Hsep. induction l as [| x l IH]; intros H; [constructor |].
  inversion H as [| ? ? Hx Hl]; subst.
  destruct l as [| y l]; [exact Hx |].
  rewrite join_cons by discriminate.
  apply ascii_text_app; [exact Hx |].
  apply ascii_text_app; [exact Hsep | exact (IH Hl)].
Qed.

Lemma ascii_text_digits (d : Decimal.uint) :
  ascii_text (py (NilEmpty.string_of_uint d)).
Proof.
  induction d; simpl; [constructor | ..];
    (constructor; [reflexivity | exact IHd]).
Qed.

Lemma ascii_text_str_of_int (n : Z) : ascii_text (str_of_int n).
Proof.
  unfold str_of_int, NilZero.string_of_int, NilZero.string_of_uint.
  destruct (Z.to_int n) as [d | d].
  - destruct d; try apply (ascii_text_digits (_ _)).
    apply ascii_text_forallb. reflexivity.
  - change (ascii_text (45%N :: py (match d with
                                    | Decimal.Nil => "0"%string
                                    | _ => NilEmpty.string_of_uint d
                                    end))).
    constructor; [reflexivity |].
    destruct d; try apply (ascii_text_digits (_ _)).
    apply ascii_text_forallb. reflexivity.
Qed.


(** ** What the standard output can encode *)

Lemma encodable_ascii (out : console) (x : str) :
  ascii_text x -> encodable out x = true.
Proof.
  intros H. unfold encodable. apply forallb_forall. intros c Hc.
  unfold ascii_text in H. rewrite Forall_forall in H.
  unfold can_encode. rewrite (proj2 (N.ltb_lt c 128) (H c Hc)). reflexivity.
Qed.

Lemma encodable_literal (out : console) (x : str) :
  forallb (fun c => (c <? 128)%N) x = true -> encodable out x = true.
Proof. intros H. apply encodable_ascii, ascii_text_forallb, H. Qed.

Lemma encodable_app (out : console) (a b : str) :
  encodable out (a ++ b) = encodable out a && encodable out b.
Proof. apply forallb_app. Qed.

Lemma encodable_banner (out : console) (command : str) :
  encodable out (banner command) = encodable out command.
Proof.
  unfold banner.
  change (LF :: py ">>> " ++ command) with ((LF :: py ">>> ") ++ command).
  rewrite encodable_app, encodable_literal by reflexivity. reflexivity.
Qed.

Lemma encodable_diagnostic (out : console) (msg : str) :
  encodable out (diagnostic msg) = encodable out msg.
Proof.
  unfold diagnostic.
  rewrite !encodable_app, !encodable_literal by reflexivity.
  apply andb_true_r.
Qed.

Lemma encodable_error_line (out : console) (msg : str) :
  encodable out (error_line msg) = encodable out msg.
Proof.
  unfold error_line.
  change (LF :: py "Error: " ++ msg) with ((LF :: py "Error: ") ++ msg).
  rewrite encodable_app, encodable_literal by reflexivity. reflexivity.
Qed.

(** ** The monad *)

Lemma prints_only_ret {A} (a : A) : prints_only (ret a) a [].
Proof. intros [p c]. unfold ret. simpl. rewrite app_nil_r. reflexivity. Qed.

Lemma prints_only_print (out : console) (x : str) :
  encodable out x = true -> prints_only (print out x) tt [x].
Proof. intros H s. unfold print. rewrite H. reflexivity. Qed.

(** What a computation that only prints has printed is what it prints when
    started from nothing. *)
Lemma prints_only_initial {A} (m : M A) a outs :
  prints_only m a outs -> outs = printed (snd (m initial)).
Proof. intros H. rewrite H. reflexivity. Qed.

Lemma bind_print {B} (out : console) (x : str) (k : unit -> M B) (s : state) :
  encodable out x = true ->
  bind (print out x) k s
  = k tt {| printed := printed s ++ [x]; ssh_calls := ssh_calls s |}.
Proof. intros H. unfold bind, print. rewrite H. reflexivity. Qed.

Lemma bind_print_literal {B} (out : console) (x : str) (k : unit -> M B) (s : state) :
  forallb (fun c => (c <? 128)%N) x = true ->
  bind (print out x) k s
  = k tt {| printed := printed s ++ [x]; ssh_calls := ssh_calls s |}.
Proof. intros H. apply bind_print, encodable_literal, H. Qed.

Lemma bind_print_fails {B} (out : console) (x : str) (k : unit -> M B) (s : state) :
  encodable out x = false ->
  bind (print out x) k s = (Raised (Exception (encode_error out x)), s).
Proof. intros H. unfold bind, print. rewrite H. reflexivity. Qed.

Lemma bind_call {B} (ev : ssh_event) (k : unit -> M B) (s : state) :
  bind (call ev) k s
  = k tt {| printed := printed s; ssh_calls := ssh_calls s ++ [ev] |}.
Proof. reflexivity. Qed.

(** ** [run_command]: the output block *)

Lemma truncation_message_ascii (n : Z) :
  ascii_text (py "... [" ++ str_of_int n ++ py " lines truncated] ...").
Proof.
  apply ascii_text_app; [apply ascii_text_forallb; reflexivity |].
  apply ascii_text_app; [apply ascii_text_str_of_int |].
  apply ascii_text_forallb; reflexivity.
Qed.

Lemma shown_text_ascii (raw : bytes) (n : nat) :
  ascii_text (join [LF] (skipn n (split LF (strip (clean_output (decode_replace raw)))))).
Proof.
  apply ascii_text_join; [apply ascii_text_forallb; reflexivity |].
  apply Forall_skipn_keep, ascii_text_split, ascii_text_strip, clean_output_ascii.
Qed.

Lemma show_output_truncated (out : console) (ch : channel) (raw : bytes) :
  stdout ch = inl raw ->
  let lines := split LF (strip (clean_output (decode_replace raw))) in
  (50 < len lines)%Z ->
  prints_only (show_output out ch) tt
    [py "... [" ++ str_of_int (len lines - 50) ++ py " lines truncated] ...";
     join [LF] (slice_from (-50) lines)].
Proof.
  intros Hout lines Hlen s. unfold show_output, try_except, bind at 1, read, ret.
  rewrite Hout. cbv beta iota.
  rewrite (many_lines_truthy _ Hlen).
  fold lines. pose proof Hlen as Hgt. apply Z.gtb_lt in Hgt. rewrite Hgt.
  unfold bind at 1.
  rewrite bind_print by apply encodable_ascii, truncation_message_ascii.
  unfold ret. cbv beta iota.
  assert (Hshown : encodable out (join [LF] (slice_from (-50) lines)) = true).
  { apply encodable_ascii. unfold slice_from, lines. apply shown_text_ascii. }
  rewrite (prints_only_print out _ Hshown).
  cbn [printed ssh_calls]. rewrite <- app_assoc. reflexivity.
Qed.

Lemma show_output_short (out : console) (ch : channel) (raw : bytes) :
  stdout ch = inl raw ->
  strip (clean_output (decode_replace raw)) <> [] ->
  (len (split LF (strip (clean_output (decode_replace raw)))) <= 50)%Z ->
  prints_only (show_output out ch) tt [strip (clean_output (decode_replace raw))].
Proof.
  intros Hout Htext Hlen s. unfold show_output, try_except, bind at 1, read, ret.
  rewrite Hout. cbv beta iota.
  apply truthy_nonempty in Htext. rewrite Htext.
  assert (Hle : (len (split LF (strip (clean_output (decode_replace raw)))) >? 50)%Z
                = false).
  { rewrite Z.gtb_ltb. apply Z.ltb_ge. exact Hlen. }
  rewrite Hle. unfold bind, ret. cbv beta iota. rewrite join_split.
  rewrite (prints_only_print out _
             (encodable_ascii out
                (ascii_text_strip (clean_output_ascii (decode_replace raw))))).
  reflexivity.
Qed.

Lemma show_output_blank (out : console) (ch : channel) (raw : bytes) :
  stdout ch = inl raw ->
  forallb isspace (clean_output (decode_replace raw)) = true ->
  prints_only (show_output out ch) tt [].
Proof.
  intros Hout Hblank s. unfold show_output, try_except, bind, read, ret.
  rewrite Hout. cbv beta iota. rewrite (strip_blank _ Hblank).
  cbn [truthy]. rewrite app_nil_r. destruct s; reflexivity.
Qed.

Lemma show_output_unreadable (out : console) (ch : channel) (msg : str) :
  stdout ch = inr msg ->
  encodable out msg = true ->
  prints_only (show_output out ch) tt [diagnostic msg].
Proof.
  intros Hout Hmsg s. unfold show_output, try_except, bind, read, raise.
  rewrite Hout. cbv beta iota. cbn [str_of_exn].
  change (py "[Output encoding error: " ++ msg ++ py "]") with (diagnostic msg).
  apply (prints_only_print out (diagnostic msg)).
  rewrite encodable_diagnostic. exact Hmsg.
Qed.

Lemma show_output_raises (out : console) (ch : channel) (msg : str) (s : state) :
  stdout ch = inr msg ->
  encodable out msg = false ->
  show_output out ch s
  = (Raised (Exception (encode_error out (diagnostic msg))), s).
Proof.
  intros Hout Hmsg. unfold show_output, try_except, bind, read, raise.
  rewrite Hout. cbv beta iota. cbn [str_of_exn].
  change (py "[Output encoding error: " ++ msg ++ py "]") with (diagnostic msg).
  unfold print. rewrite encodable_diagnostic, Hmsg. reflexivity.
Qed.

(** When standard output is read, the output block only prints. *)
Lemma show_output_read (out : console) (ch : channel) (raw : bytes) :
  stdout ch = inl raw -> exists outs, prints_only (show_output out ch) tt outs.
Proof.
  intros Hout.
  set (text := strip (clean_output (decode_replace raw))).
  destruct text as [| c text'] eqn:Et.
  - exists []. intros s. unfold show_output, try_except, bind, read, ret.
    rewrite Hout. cbv beta iota. fold text. rewrite Et.
    cbn [truthy]. rewrite app_nil_r. destruct s; reflexivity.
  - assert (Hne : text <> []) by (rewrite Et; discriminate).
    destruct (Z.lt_ge_cases 50 (len (split LF text))) as [Hlong | Hshort].
    + eexists. exact (show_output_truncated out ch Hout Hlong).
    + eexists. exact (show_output_short out ch Hout Hne Hshort).
Qed.

(** ** [run_command]: the error block *)

(** What the error block prints: a failure of the read or of [print] is
    swallowed by the bare [except]. *)
Lemma show_error_prints_only (out : console) (exit_status : Z) (ch : channel) :
  prints_only (show_error out exit_status ch) tt
    (match stderr ch with
     | inl raw =>
         if negb (exit_status =? 0)%Z && truthy (strip (decode_replace raw))
            && encodable out (py "Error: " ++ decode_replace raw)
         then [py "Error: " ++ decode_replace raw] else []
     | inr _ => []
     end).
Proof.
  intros s. unfold show_error.
  destruct (negb (exit_status =? 0)%Z).
  - unfold try_except_all, bind, read.
    destruct (stderr ch) as [raw | msg].
    + unfold ret at 1. cbv beta iota. cbn [andb].
      destruct (truthy (strip (decode_replace raw))); cbn [andb].
      * unfold print.
        destruct (encodable out (py "Error: " ++ decode_replace raw));
          [reflexivity | apply prints_only_ret].
      * apply prints_only_ret.
    + unfold raise. cbv beta iota. apply prints_only_ret.
  - destruct (stderr ch); apply prints_only_ret.
Qed.

(** ** [run_command] as a whole *)

Lemma run_command_banner_fails out ssh command timeout s :
  encodable out command = false ->
  run_command out ssh command timeout s
  = (Raised (Exception (encode_error out (banner command))), s).
Proof.
  intros H. unfold run_command.
  change (LF :: py ">>> " ++ command) with (banner command).
  apply bind_print_fails. rewrite encodable_banner. exact H.
Qed.

Lemma run_command_returns out ssh command timeout s ch outs errs :
  encodable out command = true ->
  exec_result ssh (ssh_calls s) command timeout = inl ch ->
  prints_only (show_output out ch) tt outs ->
  prints_only (show_error out (recv_exit_status ch) ch) tt errs ->
  run_command out ssh command timeout s
  = (Normal (recv_exit_status ch),
     {| printed := printed s ++ banner command :: outs ++ errs;
        ssh_calls := ssh_calls s ++ [ExecCommand command timeout] |}).
Proof.
  intros Hcmd Hexec Hout Herr. unfold run_command.
  change (LF :: py ">>> " ++ command) with (banner command).
  rewrite bind_print by (rewrite encodable_banner; exact Hcmd).
  unfold bind at 1, exec_command. cbn [printed ssh_calls].
  rewrite Hexec.
  unfold bind at 1. rewrite Hout.
  unfold bind at 1. rewrite Herr.
  unfold ret. cbn [printed ssh_calls].
  rewrite <- !app_assoc. reflexivity.
Qed.

Lemma run_command_raises out ssh command timeout s msg :
  encodable out command = true ->
  exec_result ssh (ssh_calls s) command timeout = inr msg ->
  run_command out ssh command timeout s
  = (Raised (Exception msg),
     {| printed := printed s ++ [banner command];
        ssh_calls := ssh_calls s ++ [ExecCommand command timeout] |}).
Proof.
  intros Hcmd Hexec. unfold run_command.
  change (LF :: py ">>> " ++ command) with (banner command).
  rewrite bind_print by (rewrite encodable_banner; exact Hcmd).
  unfold bind at 1, exec_command. cbn [printed ssh_calls].
  rewrite Hexec. reflexivity.
Qed.

Lemma run_command_output_raises out ssh command timeout s ch msg :
  encodable out command = true ->
  exec_result ssh (ssh_calls s) command timeout = inl ch ->
  stdout ch = inr msg ->
  encodable out msg = false ->
  run_command out ssh command timeout s
  = (Raised (Exception (encode_error out (diagnostic msg))),
     {| printed := printed s ++ [banner command];
        ssh_calls := ssh_calls s ++ [ExecCommand command timeout] |}).
Proof.
  intros Hcmd Hexec Hout Hmsg. unfold run_command.
  change (LF :: py ">>> " ++ command) with (banner command).
  rewrite bind_print by (rewrite encodable_banner; exact Hcmd).
  unfold bind at 1, exec_command. cbn [printed ssh_calls].
  rewrite Hexec.
  unfold bind at 1. rewrite (@show_output_raises out ch msg _ Hout Hmsg). reflexivity.
Qed.

(** The ways [run_command] can end, the client having seen [calls]: the
    result, what is printed and the calls made do not depend on what was
    printed before. *)
Lemma run_command_cases out ssh command timeout calls :
  exists r outs,
    (forall p,
        run_command out ssh command timeout {| printed := p; ssh_calls := calls |}
        = (r, {| printed := p ++ outs;
                 ssh_calls := calls ++ (if encodable out command
                                        then [ExecCommand command timeout]
                                        else []) |}))
    /\ (forall st, r = Normal st -> encodable out command = true)
    /\ (forall e, r = Raised e -> exists msg, e = Exception msg)
    /\ (encodable out command = true -> exists rest, outs = banner command :: rest).
Proof.
  destruct (encodable out command) eqn:Hcmd.
  - destruct (exec_result ssh calls command timeout) as [ch | msg] eqn:Hexec.
    + destruct (stdout ch) as [raw | msg] eqn:Hout.
      * destruct (show_output_read out ch Hout) as [outs Houts].
        do 2 eexists. split; [| split; [| split]].
        -- intros p.
           exact (@run_command_returns out ssh command timeout
                    {| printed := p; ssh_calls := calls |} ch outs _
                    Hcmd Hexec Houts (show_error_prints_only out _ ch)).
        -- reflexivity.
        -- intros e He. discriminate He.
        -- intros _. eexists. reflexivity.
      * destruct (encodable out msg) eqn:Hmsg.
        -- do 2 eexists. split; [| split; [| split]].
           ++ intros p.
              exact (@run_command_returns out ssh command timeout
                       {| printed := p; ssh_calls := calls |} ch _ _
                       Hcmd Hexec (show_output_unreadable out ch Hout Hmsg)
                       (show_error_prints_only out _ ch)).
           ++ reflexivity.
           ++ intros e He. discriminate He.
           ++ intros _. eexists. reflexivity.
        -- do 2 eexists. split; [| split; [| split]].
           ++ intros p.
              exact (@run_command_output_raises out ssh command timeout
                       {| printed := p; ssh_calls := calls |} ch msg
                       Hcmd Hexec Hout Hmsg).
           ++ intros st Hst. discriminate Hst.
           ++ intros e He. injection He as <-. eexists. reflexivity.
           ++ intros _. eexists. reflexivity.
    + do 2 eexists. split; [| split; [| split]].
      * intros p.
        exact (@run_command_raises out ssh command timeout
                 {| printed := p; ssh_calls := calls |} msg Hcmd Hexec).
      * intros st Hst. discriminate Hst.
      * intros e He. injection He as <-. eexists. reflexivity.
      * intros _. eexists. reflexivity.
  - exists (Raised (Exception (encode_error out (banner command)))), [].
    split; [| split; [| split]].
    + intros p. rewrite !app_nil_r.
      apply run_command_banner_fails, Hcmd.
    + intros st Hst. discriminate Hst.
    + intros e He. injection He as <-. eexists. reflexivity.
    + intros H. discriminate H.
Qed.

(** ** [run_command]: what it shows *)

(** C1: when the filtered, stripped output has more than 50 lines,
    [run_command] prints, after the banner, the truncation message with
    the number of omitted lines (all lines but 50) and then exactly the last
    50 lines; whatever follows is the error block. *)
Theorem run_command_shows_last_50_lines out ssh command timeout s ch raw :
  encodable out command = true ->
  exec_result ssh (ssh_calls s) command timeout = inl ch ->
  stdout ch = inl raw ->
  (50 < len (split LF (strip (clean_output (decode_replace raw)))))%Z ->
  exists omitted shown,
    split LF (strip (clean_output (decode_replace raw))) = omitted ++ shown
    /\ length shown = 50
    /\ (len omitted
        = len (split LF (strip (clean_output (decode_replace raw)))) - 50)%Z
    /\ printed (snd (run_command out ssh command timeout s))
       = printed s
         ++ [banner command;
             py "... [" ++ str_of_int (len omitted) ++ py " lines truncated] ...";
             join [LF] shown]
         ++ printed (snd (show_error out (recv_exit_status ch) ch initial)).
Proof.
  intros Hcmd Hexec Hout Hlen.
  set (lines := split LF (strip (clean_output (decode_replace raw)))) in *.
  exists (firstn (length lines - 50) lines), (skipn (length lines - 50) lines).
  assert (Hn : 50 < length lines) by (unfold len in Hlen; lia).
  assert (Hom : (len (firstn (length lines - 50) lines) = len lines - 50)%Z).
  { unfold len. rewrite length_firstn. lia. }
  split; [symmetry; apply firstn_skipn |].
  split; [rewrite length_skipn; lia |].
  split; [exact Hom |].
  rewrite (@run_command_returns out ssh command timeout s ch _ _ Hcmd Hexec
             (show_output_truncated out ch Hout Hlen)
             (show_error_prints_only out _ ch)).
  cbn [snd printed]. fold lines.
  rewrite Hom, (slice_last_50 lines Hlen).
  rewrite <- (prints_only_initial
                (show_error_prints_only out (recv_exit_status ch) ch)).
  reflexivity.
Qed.

Lemma run_command_shows_last_50_lines_witness :
  (50 < len (split LF (strip (clean_output (decode_replace (x_lines 51))))))%Z
  /\ exists omitted shown,
       split LF (strip (clean_output (decode_replace (x_lines 51)))) = omitted ++ shown
       /\ length shown = 50
       /\ (len omitted
           = len (split LF (strip (clean_output (decode_replace (x_lines 51))))) - 50)%Z
       /\ printed (snd (run_command utf8 (steady_host long_listing) (py "ls") 300
                          initial))
          = printed initial
            ++ [banner (py "ls");
                py "... [" ++ str_of_int (len omitted) ++ py " lines truncated] ...";
                join [LF] shown]
            ++ printed (snd (show_error utf8 (recv_exit_status long_listing)
                                        long_listing initial)).
Proof.
  split; [vm_compute; reflexivity |].
  apply (@run_command_shows_last_50_lines utf8 (steady_host long_listing) (py "ls")
           300 initial long_listing (x_lines 51));
    [reflexivity | reflexivity | reflexivity | vm_compute; reflexivity].
Defined.

(** C10: when the output, decoded and filtered, is empty or only
    whitespace, [run_command] prints the banner and no output block (no
    text, no truncation message); the only thing that may follow is the
    error block, and the exit status is returned. *)
Theorem run_command_blank_output out ssh command timeout s ch raw :
  encodable out command = true ->
  exec_result ssh (ssh_calls s) command timeout = inl ch ->
  stdout ch = inl raw ->
  forallb isspace (clean_output (decode_replace raw)) = true ->
  run_command out ssh command timeout s
  = (Normal (recv_exit_status ch),
     {| printed := printed s
                   ++ banner command
                   :: printed (snd (show_error out (recv_exit_status ch) ch initial));
        ssh_calls := ssh_calls s ++ [ExecCommand command timeout] |}).
Proof.
  intros Hcmd Hexec Hout Hblank.
  rewrite (@run_command_returns out ssh command timeout s ch _ _ Hcmd Hexec
             (show_output_blank out ch Hout Hblank)
             (show_error_prints_only out _ ch)).
  rewrite <- (prints_only_initial
                (show_error_prints_only out (recv_exit_status ch) ch)).
  reflexivity.
Qed.

Lemma run_command_blank_output_witness :
  forallb isspace (clean_output (decode_replace [x20; xc3; xa9; x0a; x09])) = true
  /\ run_command utf8 (steady_host blank_output) (py "pm2 save") 300 initial
     = (Normal 0%Z,
        {| printed := [banner (py "pm2 save")];
           ssh_calls := [ExecCommand (py "pm2 save") 300] |}).
Proof.
  split; [reflexivity |].
  apply (@run_command_blank_output utf8 (steady_host blank_output) (py "pm2 save")
           300 initial blank_output [x20; xc3; xa9; x0a; x09]); reflexivity.
Defined.

(** ** [run_command]: standard error *)

Lemma encodable_error_text (out : console) (text : str) :
  encodable out (py "Error: " ++ text) = encodable out text.
Proof. rewrite encodable_app, encodable_literal by reflexivity. reflexivity. Qed.

(** C8, as the claim states it, fails: with exit status 3 and a
    standard error that is not blank but holds U+2717, on a Latin-1 standard
    output, [run_command] prints the banner and nothing else; the [print] of
    line 33 raised and the bare [except] swallowed it. *)
Lemma run_command_reports_stderr_counterexample :
  recv_exit_status crossed <> 0%Z
  /\ stderr crossed = inl [xe2; x9c; x97; x20; x66; x61; x69; x6c; x65; x64; x0a]
  /\ strip (decode_replace [xe2; x9c; x97; x20; x66; x61; x69; x6c; x65; x64; x0a])
     <> []
  /\ run_command latin1 (steady_host crossed) (py "nginx -t") 300 initial
     = (Normal 3%Z,
        {| printed := [banner (py "nginx -t")];
           ssh_calls := [ExecCommand (py "nginx -t") 300] |})
  /\ ~ (In (py "Error: "
            ++ decode_replace [xe2; x9c; x97; x20; x66; x61; x69; x6c; x65; x64; x0a])
           (printed (snd (run_command latin1 (steady_host crossed) (py "nginx -t")
                            300 initial)))
        <-> recv_exit_status crossed <> 0%Z
            /\ strip (decode_replace
                        [xe2; x9c; x97; x20; x66; x61; x69; x6c; x65; x64; x0a])
               <> []).
Proof.
  split; [discriminate |].
  split; [reflexivity |].
  split; [vm_compute; discriminate |].
  split; [vm_compute; reflexivity |].
  intros [_ H].
  assert (Hin : In (py "Error: "
                    ++ decode_replace
                         [xe2; x9c; x97; x20; x66; x61; x69; x6c; x65; x64; x0a])
                   (printed (snd (run_command latin1 (steady_host crossed)
                                    (py "nginx -t") 300 initial)))).
  { apply H. split; [discriminate | vm_compute; discriminate]. }
  vm_compute in Hin. destruct Hin as [Hin | []]. discriminate Hin.
Qed.

(** C8, amended: once the command has been dispatched and its output
    block is done, [run_command] returns the exit status of the channel as
    it is; after the banner and the output block it prints the decoded
    standard error exactly when the exit status is not 0, that text is not
    empty once stripped and the standard output can encode it, and prints
    nothing there otherwise, in particular when reading standard error
    raises. *)
Theorem run_command_reports_stderr out ssh command timeout s ch :
  encodable out command = true ->
  exec_result ssh (ssh_calls s) command timeout = inl ch ->
  (forall msg, stdout ch = inr msg -> encodable out msg = true) ->
  exists errs,
    run_command out ssh command timeout s
    = (Normal (recv_exit_status ch),
       {| printed := printed s
                     ++ banner command
                     :: printed (snd (show_output out ch initial)) ++ errs;
          ssh_calls := ssh_calls s ++ [ExecCommand command timeout] |})
    /\ (forall raw, stderr ch = inl raw ->
          (errs = [py "Error: " ++ decode_replace raw]
           <-> recv_exit_status ch <> 0%Z
               /\ strip (decode_replace raw) <> []
               /\ encodable out (decode_replace raw) = true)
          /\ (errs = []
              <-> ~ (recv_exit_status ch <> 0%Z
                     /\ strip (decode_replace raw) <> []
                     /\ encodable out (decode_replace raw) = true)))
    /\ (forall msg, stderr ch = inr msg -> errs = []).
Proof.
  intros Hcmd Hexec Hdiag.
  assert (Houts : exists outs, prints_only (show_output out ch) tt outs).
  { destruct (stdout ch) as [raw | msg] eqn:Hout.
    - exact (show_output_read out ch Hout).
    - eexists. exact (show_output_unreadable out ch Hout (Hdiag msg eq_refl)). }
  destruct Houts as [outs Houts].
  pose proof (show_error_prints_only out (recv_exit_status ch) ch) as Herr.
  eexists. split; [| split].
  - rewrite (@run_command_returns out ssh command timeout s ch _ _ Hcmd Hexec Houts Herr).
    rewrite <- (prints_only_initial Houts). reflexivity.
  - intros raw Hraw. rewrite Hraw. rewrite encodable_error_text.
    destruct (Z.eqb_spec (recv_exit_status ch) 0) as [E | E]; cbn [negb andb].
    + split; split; try discriminate; try reflexivity; tauto.
    + destruct (truthy (strip (decode_replace raw))) eqn:Ht; cbn [andb].
      * apply truthy_nonempty in Ht.
        destruct (encodable out (decode_replace raw)) eqn:He.
        -- split; split; try discriminate; try reflexivity; tauto.
        -- split; split; try discriminate; try reflexivity;
             intros H; try (exfalso; apply H); intuition congruence.
      * assert (strip (decode_replace raw) = []).
        { destruct (strip (decode_replace raw)); [reflexivity | discriminate]. }
        split; split; try discriminate; try reflexivity; tauto.
  - intros msg Hmsg. rewrite Hmsg. reflexivity.
Qed.

Lemma run_command_reports_stderr_witness :
  exists errs,
    run_command utf8 (steady_host crossed) (py "nginx -t") 300 initial
    = (Normal 3%Z,
       {| printed := printed initial
                     ++ banner (py "nginx -t")
                     :: printed (snd (show_output utf8 crossed initial)) ++ errs;
          ssh_calls := ssh_calls initial ++ [ExecCommand (py "nginx -t") 300] |})
    /\ (forall raw, stderr crossed = inl raw ->
          (errs = [py "Error: " ++ decode_replace raw]
           <-> recv_exit_status crossed <> 0%Z
               /\ strip (decode_replace raw) <> []
               /\ encodable utf8 (decode_replace raw) = true)
          /\ (errs = []
              <-> ~ (recv_exit_status crossed <> 0%Z
                     /\ strip (decode_replace raw) <> []
                     /\ encodable utf8 (decode_replace raw) = true)))
    /\ (forall msg, stderr crossed = inr msg -> errs = []).
Proof.
  apply (@run_command_reports_stderr utf8 (steady_host crossed) (py "nginx -t") 300
           initial crossed).
  - reflexivity.
  - reflexivity.
  - intros msg H. discriminate H.
Defined.

(** ** [run_command]: the other paths *)

(** X3: when [exec_command] raises (a timeout, a lost connection),
    [run_command] lets the exception through: only the banner has been
    printed, no stream is read and no status is returned. *)
Theorem run_command_exec_failure out ssh command timeout s msg :
  encodable out command = true ->
  exec_result ssh (ssh_calls s) command timeout = inr msg ->
  run_command out ssh command timeout s
  = (Raised (Exception msg),
     {| printed := printed s ++ [banner command];
        ssh_calls := ssh_calls s ++ [ExecCommand command timeout] |}).
Proof. apply run_command_raises. Qed.

Lemma run_command_exec_failure_witness :
  exec_result (unreachable_host (py "Timeout opening channel."))
    (ssh_calls initial) (py "pm2 save") 300
  = inr (py "Timeout opening channel.")
  /\ run_command utf8 (unreachable_host (py "Timeout opening channel."))
       (py "pm2 save") 300 initial
     = (Raised (Exception (py "Timeout opening channel.")),
        {| printed := [banner (py "pm2 save")];
           ssh_calls := [ExecCommand (py "pm2 save") 300] |}).
Proof.
  split; [reflexivity |].
  apply (@run_command_exec_failure utf8
           (unreachable_host (py "Timeout opening channel."))
           (py "pm2 save") 300 initial (py "Timeout opening channel."));
    reflexivity.
Defined.

(** X4: when reading standard output raises, [run_command] prints the
    diagnostic with the message of the exception in place of the output,
    goes on to the error block and returns the exit status; if the standard
    output cannot encode that message, the encoding error of the diagnostic
    leaves [run_command] instead. *)
Theorem run_command_stdout_unreadable out ssh command timeout s ch msg :
  encodable out command = true ->
  exec_result ssh (ssh_calls s) command timeout = inl ch ->
  stdout ch = inr msg ->
  run_command out ssh command timeout s
  = if encodable out msg then
      (Normal (recv_exit_status ch),
       {| printed := printed s
                     ++ banner command
                     :: (py "[Output encoding error: " ++ msg ++ py "]")
                     :: printed (snd (show_error out (recv_exit_status ch) ch
                                                 initial));
          ssh_calls := ssh_calls s ++ [ExecCommand command timeout] |})
    else
      (Raised (Exception
                 (encode_error out (py "[Output encoding error: " ++ msg ++ py "]"))),
       {| printed := printed s ++ [banner command];
          ssh_calls := ssh_calls s ++ [ExecCommand command timeout] |}).
Proof.
  intros Hcmd Hexec Hout.
  destruct (encodable out msg) eqn:Hmsg.
  - rewrite (@run_command_returns out ssh command timeout s ch _ _ Hcmd Hexec
               (show_output_unreadable out ch Hout Hmsg)
               (show_error_prints_only out _ ch)).
    rewrite <- (prints_only_initial
                  (show_error_prints_only out (recv_exit_status ch) ch)).
    reflexivity.
  - exact (@run_command_output_raises out ssh command timeout s ch msg
             Hcmd Hexec Hout Hmsg).
Qed.

Lemma run_command_stdout_unreadable_witness :
  stdout stalled = inr (py "timed out")
  /\ run_command utf8 (steady_host stalled) (py "npm run build") 300 initial
     = (Normal 0%Z,
        {| printed := [banner (py "npm run build");
                       py "[Output encoding error: timed out]"];
           ssh_calls := [ExecCommand (py "npm run build") 300] |}).
Proof.
  split; [reflexivity |].
  apply (@run_command_stdout_unreadable utf8 (steady_host stalled)
           (py "npm run build") 300 initial stalled (py "timed out")); reflexivity.
Defined.

(** X5: when the filtered, stripped output is not empty and has at
    most 50 lines, [run_command] prints it whole and unchanged after the
    banner, with no truncation message. *)
Theorem run_command_short_output out ssh command timeout s ch raw :
  encodable out command = true ->
  exec_result ssh (ssh_calls s) command timeout = inl ch ->
  stdout ch = inl raw ->
  strip (clean_output (decode_replace raw)) <> [] ->
  (len (split LF (strip (clean_output (decode_replace raw)))) <= 50)%Z ->
  run_command out ssh command timeout s
  = (Normal (recv_exit_status ch),
     {| printed := printed s
                   ++ banner command
                   :: strip (clean_output (decode_replace raw))
                   :: printed (snd (show_error out (recv_exit_status ch) ch initial));
        ssh_calls := ssh_calls s ++ [ExecCommand command timeout] |}).
Proof.
  intros Hcmd Hexec Hout Htext Hlen.
  rewrite (@run_command_returns out ssh command timeout s ch _ _ Hcmd Hexec
             (show_output_short out ch Hout Htext Hlen)
             (show_error_prints_only out _ ch)).
  rewrite <- (prints_only_initial
                (show_error_prints_only out (recv_exit_status ch) ch)).
  reflexivity.
Qed.

Lemma run_command_short_output_witness :
  strip (clean_output (decode_replace [x0a; x76; x32; x30; xe2; x9c; x93; x0a])) <> []
  /\ (len (split LF (strip (clean_output
             (decode_replace [x0a; x76; x32; x30; xe2; x9c; x93; x0a])))) <= 50)%Z
  /\ run_command latin1 (steady_host version_line) (py "node -v") 300 initial
     = (Normal 0%Z,
        {| printed := [banner (py "node -v"); py "v20"];
           ssh_calls := [ExecCommand (py "node -v") 300] |}).
Proof.
  split; [vm_compute; discriminate |].
  split; [vm_compute; discriminate |].
  apply (@run_command_short_output latin1 (steady_host version_line) (py "node -v")
           300 initial version_line [x0a; x76; x32; x30; xe2; x9c; x93; x0a]);
    [reflexivity | reflexivity | reflexivity
     | vm_compute; discriminate | vm_compute; discriminate].
Defined.

(** X6: whatever the host answers, [run_command] makes at most one
    call on the client.  When the standard output can encode the command,
    the banner is the first thing printed and the one call is
    [exec_command] with the command and the timeout given; when it cannot,
    the [print] of the banner raises before any call, nothing being
    printed. *)
Theorem run_command_one_call out ssh command timeout s :
  ssh_calls (snd (run_command out ssh command timeout s))
  = ssh_calls s ++ (if encodable out command
                    then [ExecCommand command timeout] else [])
  /\ (if encodable out command
      then exists rest,
             printed (snd (run_command out ssh command timeout s))
             = printed s ++ banner command :: rest
      else run_command out ssh command timeout s
           = (Raised (Exception (encode_error out (banner command))), s)).
Proof.
  destruct s as [p calls].
  destruct (run_command_cases out ssh command timeout calls)
    as (r & outs & Hrun & _ & _ & Hbanner).
  rewrite (Hrun p). cbn [snd ssh_calls printed]. split; [reflexivity |].
  destruct (encodable out command) eqn:Hcmd.
  - destruct (Hbanner eq_refl) as [rest ->]. exists rest. reflexivity.
  - rewrite <- (Hrun p). apply run_command_banner_fails, Hcmd.
Qed.

(** ** What the output block can show *)

(** X7: the text the output block ends with is always a tail of the
    filtered, stripped output, and it never has more than 50 lines. *)
Theorem show_output_tail_of_at_most_50_lines
        (out : console) (ch : channel) (raw : bytes) :
  stdout ch = inl raw ->
  strip (clean_output (decode_replace raw)) <> [] ->
  exists cut shown,
    strip (clean_output (decode_replace raw)) = cut ++ shown
    /\ last (printed (snd (show_output out ch initial))) [] = shown
    /\ (len (split LF shown) <= 50)%Z.
Proof.
  intros Hout Htext.
  set (text := strip (clean_output (decode_replace raw))) in *.
  destruct (Z.lt_ge_cases 50 (len (split LF text))) as [Hlong | Hshort].
  - pose proof (show_output_truncated out ch Hout) as Hp. cbv zeta in Hp.
    fold text in Hp. specialize (Hp Hlong).
    rewrite <- (prints_only_initial Hp). cbn [last].
    set (lines := split LF text) in *.
    assert (Hn : 50 < length lines) by (unfold len in Hlong; lia).
    rewrite (slice_last_50 lines Hlong).
    exists (join [LF] (firstn (length lines - 50) lines) ++ [LF]),
           (join [LF] (skipn (length lines - 50) lines)).
    split; [| split; [reflexivity |]].
    + rewrite <- app_assoc, <- join_app.
      * rewrite firstn_skipn. unfold lines. symmetry. apply join_split.
      * intros E. apply (f_equal (@length str)) in E.
        rewrite length_firstn in E. simpl in E. lia.
      * apply last_50_nonempty, Hn.
    + rewrite split_join.
      * unfold len. rewrite length_skipn. lia.
      * apply last_50_nonempty, Hn.
      * apply Forall_skipn_keep. apply split_no_sep.
  - pose proof (show_output_short out ch Hout Htext) as Hp.
    fold text in Hp. specialize (Hp Hshort).
    rewrite <- (prints_only_initial Hp). cbn [last].
    exists [], text. repeat split. exact Hshort.
Qed.

Lemma show_output_tail_of_at_most_50_lines_witness :
  strip (clean_output (decode_replace (x_lines 51))) <> []
  /\ exists cut shown,
       strip (clean_output (decode_replace (x_lines 51))) = cut ++ shown
       /\ last (printed (snd (show_output utf8 long_listing initial))) [] = shown
       /\ (len (split LF shown) <= 50)%Z.
Proof.
  split; [vm_compute; discriminate |].
  apply (@show_output_tail_of_at_most_50_lines utf8 long_listing (x_lines 51));
    [reflexivity | vm_compute; discriminate].
Defined.

(** X8: when standard output can be read, every text the output block
    prints (the truncation message, the lines shown) is ASCII only,
    whatever bytes the command produced. *)
Theorem show_output_prints_ascii (out : console) (ch : channel) (raw : bytes) :
  stdout ch = inl raw ->
  Forall ascii_text (printed (snd (show_output out ch initial))).
Proof.
  intros Hout.
  set (text := strip (clean_output (decode_replace raw))).
  assert (Htext : ascii_text text)
    by apply ascii_text_strip, clean_output_ascii.
  destruct text as [| c text'] eqn:Et.
  - assert (Hp : prints_only (show_output out ch) tt []).
    { intros s. unfold show_output, try_except, bind, read, ret.
      rewrite Hout. cbv beta iota. fold text. rewrite Et.
      cbn [truthy]. rewrite app_nil_r. destruct s; reflexivity. }
    rewrite <- (prints_only_initial Hp). constructor.
  - rewrite <- Et in Htext.
    assert (Hne : text <> []) by (rewrite Et; discriminate).
    destruct (Z.lt_ge_cases 50 (len (split LF text))) as [Hlong | Hshort].
    + pose proof (show_output_truncated out ch Hout) as Hp. cbv zeta in Hp.
      specialize (Hp Hlong). rewrite <- (prints_only_initial Hp).
      constructor; [| constructor; [| constructor]].
      * apply truncation_message_ascii.
      * unfold slice_from. apply shown_text_ascii.
    + pose proof (show_output_short out ch Hout Hne Hshort) as Hp.
      rewrite <- (prints_only_initial Hp).
      constructor; [exact Htext | constructor].
Qed.

Lemma show_output_prints_ascii_witness :
  stdout version_line = inl [x0a; x76; x32; x30; xe2; x9c; x93; x0a]
  /\ Forall ascii_text (printed (snd (show_output latin1 version_line initial))).
Proof.
  split; [reflexivity |].
  apply (@show_output_prints_ascii latin1 version_line
           [x0a; x76; x32; x30; xe2; x9c; x93; x0a]).
  reflexivity.
Defined.

(** ** [main]: the argument check *)

Lemma main_too_few_arguments (out : console) (ssh : remote) (argv : list str) :
  (len argv <? 5)%Z = true ->
  main out ssh argv initial
  = (Raised (SystemExit 1),
     {| printed :=
          [py "Usage: python setup_remote.py <host> <user> <password> <github_repo_url>";
           py "Example: python setup_remote.py 194.163.144.206 root mypassword https://github.com/user/repo.git"];
        ssh_calls := [] |}).
Proof.
  intros Hlt. unfold main, bind at 1. rewrite Hlt.
  rewrite !bind_print_literal by reflexivity. reflexivity.
Qed.

(** C4: with fewer than four arguments after the script name, [main]
    prints the two usage lines and exits with status 1; nothing was done
    with an SSH client, not even its creation. *)
Theorem main_usage_exit (out : console) (ssh : remote) (argv : list str) :
  (len argv - 1 < 4)%Z ->
  main out ssh argv initial
  = (Raised (SystemExit 1),
     {| printed :=
          [py "Usage: python setup_remote.py <host> <user> <password> <github_repo_url>";
           py "Example: python setup_remote.py 194.163.144.206 root mypassword https://github.com/user/repo.git"];
        ssh_calls := [] |})
  /\ exit_code (fst (main out ssh argv initial)) = 1%Z.
Proof.
  intros Hargs.
  assert (Hlt : (len argv <? 5)%Z = true) by (apply Z.ltb_lt; lia).
  rewrite (main_too_few_arguments out ssh argv Hlt). split; reflexivity.
Qed.

Lemma main_usage_exit_witness :
  (len [py "setup_remote.py"; py "10.0.0.1"; py "root"] - 1 < 4)%Z
  /\ exit_code (fst (main latin1 (unreachable_host (py "unused"))
                       [py "setup_remote.py"; py "10.0.0.1"; py "root"] initial)) = 1%Z.
Proof.
  split; [reflexivity |].
  apply (@main_usage_exit latin1 (unreachable_host (py "unused"))
           [py "setup_remote.py"; py "10.0.0.1"; py "root"]).
  reflexivity.
Defined.

(** ** [main]: the session *)

Lemma enough_arguments {A} (a b c d e : A) (rest : list A) :
  (len (a :: b :: c :: d :: e :: rest) <? 5)%Z = false.
Proof. apply Z.ltb_ge. unfold len. simpl length. lia. Qed.

Lemma bind_ret {A B} (a : A) (k : A -> M B) (s : state) : bind (ret a) k s = k a s.
Proof. reflexivity. Qed.

Lemma encodable_connecting (out : console) (HOST : str) :
  encodable out (LF :: py "Connecting to " ++ HOST ++ py "...") = encodable out HOST.
Proof.
  change (LF :: py "Connecting to " ++ HOST ++ py "...")
    with ((LF :: py "Connecting to ") ++ HOST ++ py "...").
  rewrite !encodable_app, !encodable_literal by reflexivity.
  apply andb_true_r.
Qed.

Lemma encodable_running_at (out : console) (HOST : str) :
  encodable out (LF :: py "Your Claude Dev Hub is running at: http://" ++ HOST)
  = encodable out HOST.
Proof.
  change (LF :: py "Your Claude Dev Hub is running at: http://" ++ HOST)
    with ((LF :: py "Your Claude Dev Hub is running at: http://") ++ HOST).
  rewrite encodable_app, encodable_literal by reflexivity. reflexivity.
Qed.

(** With its four arguments and a host name the standard output can encode,
    [main] prints the header, creates the client, sets the host-key policy
    and enters the [try] block. *)
Lemma main_enters_session out ssh script HOST USER PASSWORD GITHUB_REPO rest :
  encodable out HOST = true ->
  main out ssh (script :: HOST :: USER :: PASSWORD :: GITHUB_REPO :: rest) initial
  = try_finally
      (try_except
         (connect ssh HOST USER PASSWORD 30 ;;
          print out (py "Connected successfully!" ++ [LF]) ;;
          provision out ssh GITHUB_REPO ;;
          print out (LF :: str_mul (py "=") 50) ;;
          print out (py "SETUP COMPLETE!") ;;
          print out (str_mul (py "=") 50) ;;
          print out (LF :: py "Your Claude Dev Hub is running at: http://" ++ HOST) ;;
          print out (str_mul (py "=") 50))
         (fun e => print out (LF :: py "Error: " ++ str_of_exn e) ;; sys_exit 1))
      close
      {| printed := [str_mul (py "=") 50;
                     py "Claude Dev Hub - Remote Server Setup";
                     str_mul (py "=") 50;
                     LF :: py "Connecting to " ++ HOST ++ py "..."];
         ssh_calls := [SSHClient; SetMissingHostKeyPolicy] |}.
Proof.
  intros HH. unfold main, bind at 1. rewrite enough_arguments.
  unfold ret at 1. cbv beta iota. cbn [getitem nth_error].
  rewrite !bind_ret.
  rewrite !bind_print_literal by reflexivity.
  rewrite bind_print by (rewrite encodable_connecting; exact HH).
  unfold new_client, set_missing_host_key_policy. rewrite !bind_call.
  reflexivity.
Qed.

(** With a host name the standard output cannot encode, the [print] of
    line 53 raises: no client is created. *)
Lemma main_host_unencodable out ssh script HOST USER PASSWORD GITHUB_REPO rest :
  encodable out HOST = false ->
  main out ssh (script :: HOST :: USER :: PASSWORD :: GITHUB_REPO :: rest) initial
  = (Raised (Exception
               (encode_error out (LF :: py "Connecting to " ++ HOST ++ py "..."))),
     {| printed := [str_mul (py "=") 50;
                    py "Claude Dev Hub - Remote Server Setup";
                    str_mul (py "=") 50];
        ssh_calls := [] |}).
Proof.
  intros HH. unfold main, bind at 1. rewrite enough_arguments.
  unfold ret at 1. cbv beta iota. cbn [getitem nth_error].
  rewrite !bind_ret.
  rewrite !bind_print_literal by reflexivity.
  rewrite bind_print_fails by (rewrite encodable_connecting; exact HH).
  reflexivity.
Qed.

Lemma connect_accepted ssh host username password timeout s :
  connect_result ssh host username password timeout = None ->
  connect ssh host username password timeout s
  = (Normal tt,
     {| printed := printed s;
        ssh_calls := ssh_calls s ++ [Connect host username password timeout] |}).
Proof. intros H. unfold connect. rewrite bind_call, H. reflexivity. Qed.

Lemma connect_refused ssh host username password timeout s msg :
  connect_result ssh host username password timeout = Some msg ->
  connect ssh host username password timeout s
  = (Raised (Exception msg),
     {| printed := printed s;
        ssh_calls := ssh_calls s ++ [Connect host username password timeout] |}).
Proof. intros H. unfold connect. rewrite bind_call, H. reflexivity. Qed.

(** How the [except] and [finally] clauses end the session. *)
Lemma session_ends (out : console) (m : M unit) (s : state) :
  try_finally
    (try_except m
       (fun e => print out (LF :: py "Error: " ++ str_of_exn e) ;; sys_exit 1))
    close s
  = match m s with
    | (Raised (Exception msg), s1) => aborted out msg (printed s1) (ssh_calls s1)
    | (r, s1) => (r, {| printed := printed s1; ssh_calls := ssh_calls s1 ++ [Close] |})
    end.
Proof.
  unfold try_finally, try_except.
  destruct (m s) as [[a | [msg | code]] s1]; try reflexivity.
  cbn [str_of_exn]. unfold aborted.
  change (LF :: py "Error: " ++ msg) with (error_line msg).
  destruct (encodable out (error_line msg)) eqn:He.
  - rewrite bind_print by exact He. reflexivity.
  - rewrite bind_print_fails by exact He. reflexivity.
Qed.

Lemma aborted_exit_code out msg p calls :
  exit_code (fst (aborted out msg p calls)) = 1%Z.
Proof. unfold aborted. destruct (encodable out (error_line msg)); reflexivity. Qed.

Lemma aborted_calls out msg p calls :
  ssh_calls (snd (aborted out msg p calls)) = calls ++ [Close].
Proof. unfold aborted. destruct (encodable out (error_line msg)); reflexivity. Qed.

Lemma aborted_ending out msg p calls :
  (fst (aborted out msg p calls) = Raised (SystemExit 1)
   /\ printed (snd (aborted out msg p calls)) = p ++ [LF :: py "Error: " ++ msg])
  \/ (exists x, encodable out x = false
                /\ fst (aborted out msg p calls)
                   = Raised (Exception (encode_error out x))).
Proof.
  unfold aborted. destruct (encodable out (error_line msg)) eqn:He.
  - left. split; reflexivity.
  - right. exists (error_line msg). split; [exact He | reflexivity].
Qed.

(** ** [main] against any host *)

Section AnyHost.

Variable out : console.
Variable ssh : remote.
Variable GITHUB_REPO : str.
Variable before : list ssh_event.

Ltac check_dispatched :=
  let j := fresh "j" in
  let ct := fresh "ct" in
  let Hj := fresh "Hj" in
  intros j ct Hj;
  repeat (destruct j as [| j];
          [ cbn [nth_error firstn provisioning_order] in Hj;
            injection Hj as <-; eexists; eassumption | ]);
  cbn [nth_error firstn provisioning_order] in Hj;
  try discriminate Hj; destruct j; discriminate Hj.

(** [provision] either runs the whole order, or stops at the first command
    that raises, with that exception; the command that raises has been
    dispatched unless its banner could not be printed. *)
Lemma provision_outcome (s : state) :
  ssh_calls s = before ->
  (run_dispatched out ssh before (provisioning_order GITHUB_REPO)
   /\ exists p,
        provision out ssh GITHUB_REPO s
        = (Normal tt,
           {| printed := p;
              ssh_calls := before
                           ++ map exec_event (provisioning_order GITHUB_REPO) |}))
  \/ (exists k ct msg p,
        nth_error (provisioning_order GITHUB_REPO) k = Some ct
        /\ run_dispatched out ssh before
             (firstn k (provisioning_order GITHUB_REPO))
        /\ outcome_of out ssh
             (before ++ map exec_event (firstn k (provisioning_order GITHUB_REPO)))
             ct = Raised (Exception msg)
        /\ provision out ssh GITHUB_REPO s
           = (Raised (Exception msg),
              {| printed := p;
                 ssh_calls := before
                              ++ map exec_event
                                   (firstn k (provisioning_order GITHUB_REPO))
                              ++ (if encodable out (fst ct)
                                  then [exec_event ct] else []) |})).
Proof.
  intros Hs. destruct s as [p0 c0]. simpl in Hs.
  rewrite <- (app_nil_r before) in Hs. subst c0.
  remember (provision out ssh GITHUB_REPO
              {| printed := p0; ssh_calls := before ++ [] |})
    as res eqn:Hres.
  unfold provision in Hres.
  let rec pass k :=
    lazymatch type of Hres with
    | context [bind (print out ?x) _ ?s] =>
        rewrite bind_print_literal in Hres by reflexivity;
        cbn [printed ssh_calls] in Hres; pass k
    | context [bind (run_command out ssh ?c ?t) _ (Build_state ?P ?C)] =>
        let r := fresh "r" in
        let outs := fresh "outs" in
        let Hrun := fresh "Hrun" in
        let Hnormal := fresh "Hnormal" in
        let Hexn := fresh "Hexn" in
        let E := fresh "E" in
        let st := fresh "st" in
        let e := fresh "e" in
        destruct (run_command_cases out ssh c t C)
          as (r & outs & Hrun & Hnormal & Hexn & _);
        assert (E : outcome_of out ssh C (c, t) = r)
          by (unfold outcome_of; cbn [fst snd]; rewrite (Hrun []); reflexivity);
        unfold bind at 1 in Hres; rewrite (Hrun P) in Hres; clear Hrun;
        destruct r as [st | e];
        [ rewrite (Hnormal st eq_refl) in Hres; clear Hnormal Hexn;
          cbn [printed ssh_calls] in Hres;
          rewrite <- ?(@app_assoc ssh_event) in Hres;
          let k' := constr:(S k) in pass k'
        | let msg := fresh "msg" in
          destruct (Hexn e eq_refl) as [msg ->]; clear Hnormal Hexn;
          rewrite <- ?(@app_assoc ssh_event) in Hres;
          rewrite Hres; right; exists k, (c, t), msg; eexists;
          split; [reflexivity |];
          split; [check_dispatched |];
          split; [exact E | reflexivity] ]
    | _ =>
        unfold ret in Hres; rewrite Hres; left;
        split; [check_dispatched | eexists; reflexivity]
    end
  in pass O.
Qed.

End AnyHost.

(** The ways a run with its four arguments can go: the host name cannot be
    printed; the connection is refused; every command returns; one command
    raises. *)
Lemma main_outcome out ssh script HOST USER PASSWORD GITHUB_REPO rest :
  let argv := script :: HOST :: USER :: PASSWORD :: GITHUB_REPO :: rest in
  let opened := [SSHClient; SetMissingHostKeyPolicy;
                 Connect HOST USER PASSWORD 30] in
  let order := provisioning_order GITHUB_REPO in
  let header := [str_mul (py "=") 50;
                 py "Claude Dev Hub - Remote Server Setup";
                 str_mul (py "=") 50;
                 LF :: py "Connecting to " ++ HOST ++ py "..."] in
  (encodable out HOST = false
   /\ main out ssh argv initial
      = (Raised (Exception
                   (encode_error out (LF :: py "Connecting to " ++ HOST ++ py "..."))),
         {| printed := [str_mul (py "=") 50;
                        py "Claude Dev Hub - Remote Server Setup";
                        str_mul (py "=") 50];
            ssh_calls := [] |}))
  \/ (encodable out HOST = true
      /\ exists msg,
           connect_result ssh HOST USER PASSWORD 30 = Some msg
           /\ main out ssh argv initial = aborted out msg header opened)
  \/ (encodable out HOST = true
      /\ exists p,
           connect_result ssh HOST USER PASSWORD 30 = None
           /\ run_dispatched out ssh opened order
           /\ main out ssh argv initial
              = (Normal tt,
                 {| printed := p ++ [LF :: str_mul (py "=") 50;
                                     py "SETUP COMPLETE!";
                                     str_mul (py "=") 50;
                                     LF :: py "Your Claude Dev Hub is running at: http://"
                                        ++ HOST;
                                     str_mul (py "=") 50];
                    ssh_calls := opened ++ map exec_event order ++ [Close] |}))
  \/ (encodable out HOST = true
      /\ exists k ct msg p,
           connect_result ssh HOST USER PASSWORD 30 = None
           /\ nth_error order k = Some ct
           /\ run_dispatched out ssh opened (firstn k order)
           /\ outcome_of out ssh (opened ++ map exec_event (firstn k order)) ct
              = Raised (Exception msg)
           /\ main out ssh argv initial
              = aborted out msg p
                  (opened ++ map exec_event (firstn k order)
                   ++ (if encodable out (fst ct) then [exec_event ct] else []))).
Proof.
  intros argv opened order header.
  destruct (encodable out HOST) eqn:HH.
  2:{ left. split; [reflexivity |]. apply main_host_unencodable, HH. }
  right.
  remember (main out ssh argv initial) as run eqn:Hrun.
  unfold argv in Hrun. rewrite main_enters_session in Hrun by exact HH.
  rewrite session_ends in Hrun. unfold bind at 1 in Hrun.
  destruct (connect_result ssh HOST USER PASSWORD 30) as [msg |] eqn:Hconn.
  - rewrite (connect_refused _ _ _ _ _ _ Hconn) in Hrun.
    left. split; [reflexivity |]. exists msg. split; [reflexivity |].
    rewrite Hrun. reflexivity.
  - rewrite (connect_accepted _ _ _ _ _ _ Hconn) in Hrun.
    rewrite bind_print_literal in Hrun by reflexivity.
    cbn [printed ssh_calls] in Hrun.
    unfold bind at 1 in Hrun.
    match type of Hrun with
    | context [provision out ssh GITHUB_REPO ?s] =>
        destruct (@provision_outcome out ssh GITHUB_REPO opened s eq_refl)
          as [[Hall [p Hp]] | (k & ct & msg & p & Hk & Hbefore & Hraise & Hp)];
        rewrite Hp in Hrun
    end.
    + right. left. split; [reflexivity |].
      exists p. split; [reflexivity |]. split; [exact Hall |].
      rewrite !bind_print_literal in Hrun by reflexivity.
      rewrite bind_print in Hrun by (rewrite encodable_running_at; exact HH).
      rewrite (prints_only_print out (str_mul (py "=") 50)) in Hrun
        by (apply encodable_literal; reflexivity).
      cbn [printed ssh_calls] in Hrun.
      rewrite <- !app_assoc in Hrun. rewrite Hrun. reflexivity.
    + right. right. split; [reflexivity |].
      exists k, ct, msg, p.
      repeat (split; [assumption || reflexivity |]).
      cbn [printed ssh_calls] in Hrun. rewrite Hrun. reflexivity.
Qed.

(** ** [main]: a connection that fails *)



(** ** [main]: a run in which no command raises *)

Lemma health_check_is_last (GITHUB_REPO : str) :
  let commands := map fst (provisioning_order GITHUB_REPO) in
  commands = firstn 18 commands ++ [health_check]
  /\ ~ In health_check (firstn 18 commands).
Proof.
  split; [reflexivity |].
  cbn [provisioning_order map fst firstn In].
  intros H.
  repeat (destruct H as [H | H]; [cbv in H; discriminate H |]).
  exact H.
Qed.

Lemma commands_of_exec_events (order : list (str * Z)) :
  commands_of (map exec_event order) = map fst order.
Proof.
  induction order as [| ct order IH]; [reflexivity |].
  simpl. rewrite IH. reflexivity.
Qed.

Lemma commands_of_app (l1 l2 : list ssh_event) :
  commands_of (l1 ++ l2) = commands_of l1 ++ commands_of l2.
Proof. unfold commands_of. apply flat_map_app. Qed.

(** C6: when the connection is accepted and no command of the run
    raises, [main] dispatches the provisioning commands in their fixed
    order, whatever exit statuses the channels report; the health check is
    the last command and occurs once; [main] returns and the exit status of
    the process is 0. *)
Theorem main_full_run out ssh script HOST USER PASSWORD GITHUB_REPO rest :
  encodable out HOST = true ->
  connect_result ssh HOST USER PASSWORD 30 = None ->
  run_dispatched out ssh
    [SSHClient; SetMissingHostKeyPolicy; Connect HOST USER PASSWORD 30]
    (provisioning_order GITHUB_REPO) ->
  let run := main out ssh (script :: HOST :: USER :: PASSWORD :: GITHUB_REPO :: rest)
                  initial in
  fst run = Normal tt
  /\ exit_code (fst run) = 0%Z
  /\ ssh_calls (snd run)
     = [SSHClient; SetMissingHostKeyPolicy; Connect HOST USER PASSWORD 30]
       ++ map exec_event (provisioning_order GITHUB_REPO) ++ [Close]
  /\ exists earlier,
       commands_of (ssh_calls (snd run)) = earlier ++ [health_check]
       /\ ~ In health_check earlier.
Proof.
  intros HH Hconn Hrun run. unfold run.
  destruct (main_outcome out ssh script HOST USER PASSWORD GITHUB_REPO rest)
    as [[Hno _]
       | [(_ & msg & Hc & _)
         | [(_ & p & _ & _ & E) | (_ & k & ct & msg & p & _ & Hk & _ & Hraise & _)]]];
    try congruence.
  - cbv zeta in E. rewrite E. cbn [fst snd ssh_calls].
    split; [reflexivity |]. split; [reflexivity |]. split; [reflexivity |].
    destruct (health_check_is_last GITHUB_REPO) as [Hlast Hnot].
    exists (firstn 18 (map fst (provisioning_order GITHUB_REPO))).
    split; [| exact Hnot].
    rewrite !commands_of_app, commands_of_exec_events.
    cbn [commands_of flat_map app]. rewrite app_nil_r. exact Hlast.
  - cbv zeta in Hk, Hraise. destruct (Hrun k ct Hk) as [st Hst]. congruence.
Qed.

Lemma main_full_run_witness :
  run_dispatched utf8 (steady_host failing)
    [SSHClient; SetMissingHostKeyPolicy;
     Connect (py "10.0.0.1") (py "root") (py "secret") 30]
    (provisioning_order (py "https://github.com/user/repo.git"))
  /\ fst (main utf8 (steady_host failing) sample_argv initial) = Normal tt
  /\ exit_code (fst (main utf8 (steady_host failing) sample_argv initial)) = 0%Z
  /\ ssh_calls (snd (main utf8 (steady_host failing) sample_argv initial))
     = [SSHClient; SetMissingHostKeyPolicy;
        Connect (py "10.0.0.1") (py "root") (py "secret") 30]
       ++ map exec_event (provisioning_order (py "https://github.com/user/repo.git"))
       ++ [Close]
  /\ exists earlier,
       commands_of (ssh_calls (snd (main utf8 (steady_host failing) sample_argv
                                         initial)))
       = earlier ++ [health_check]
       /\ ~ In health_check earlier.
Proof.
  assert (H : run_dispatched utf8 (steady_host failing)
                [SSHClient; SetMissingHostKeyPolicy;
                 Connect (py "10.0.0.1") (py "root") (py "secret") 30]
                (provisioning_order (py "https://github.com/user/repo.git"))).
  { intros k ct Hk.
    repeat (destruct k as [| k];
            [ cbn [nth_error provisioning_order] in Hk; injection Hk as <-;
              exists 1%Z; vm_compute; reflexivity | ]).
    destruct k; discriminate Hk. }
  split; [exact H |].
  apply (@main_full_run utf8 (steady_host failing) (py "setup_remote.py")
           (py "10.0.0.1") (py "root") (py "secret")
           (py "https://github.com/user/repo.git") []);
    [reflexivity | reflexivity | exact H].
Defined.

(** ** The session is closed on every path *)

Lemma no_close_in_exec_events (l : list (str * Z)) : ~ In Close (map exec_event l).
Proof.
  intros H. apply in_map_iff in H. destruct H as (ct & E & _). discriminate E.
Qed.

(** C7: whenever [main] gets as far as creating the client (it has its
    four arguments and has printed the line that names the host), whatever
    the host does (the connection refused, any command raising, or all of
    them returning), the calls on the client end with [close] and contain no
    other [close]. *)
Theorem main_closes_session_once (out : console) (ssh : remote) (argv : list str) :
  (5 <= len argv)%Z ->
  encodable out (nth 1 argv []) = true ->
  exists during,
    ssh_calls (snd (main out ssh argv initial))
    = SSHClient :: SetMissingHostKeyPolicy :: during ++ [Close]
    /\ ~ In Close during.
Proof.
  intros Hargs HH.
  destruct argv as [| script [| HOST [| USER [| PASSWORD [| GITHUB_REPO rest]]]]];
    try (unfold len in Hargs; simpl in Hargs; lia).
  cbn [nth] in HH.
  destruct (main_outcome out ssh script HOST USER PASSWORD GITHUB_REPO rest)
    as [[Hno _]
       | [(_ & msg & _ & E)
         | [(_ & p & _ & _ & E) | (_ & k & ct & msg & p & _ & _ & _ & _ & E)]]];
    try congruence; cbv zeta in E; rewrite E; clear E.
  - rewrite aborted_calls. exists [Connect HOST USER PASSWORD 30].
    split; [reflexivity |]. intros [H | []]. discriminate H.
  - cbn [snd ssh_calls].
    exists (Connect HOST USER PASSWORD 30
            :: map exec_event (provisioning_order GITHUB_REPO)).
    split; [reflexivity |]. intros [H | H]; [discriminate H |].
    exact (no_close_in_exec_events _ H).
  - rewrite aborted_calls.
    exists (Connect HOST USER PASSWORD 30
            :: map exec_event (firstn k (provisioning_order GITHUB_REPO))
               ++ (if encodable out (fst ct) then [exec_event ct] else [])).
    split; [cbn [app]; rewrite <- !app_assoc; reflexivity |].
    intros [H | H]; [discriminate H |].
    apply in_app_or in H. destruct H as [H | H].
    + exact (no_close_in_exec_events _ H).
    + destruct (encodable out (fst ct)); [| exact H].
      destruct H as [H | []]. discriminate H.
Qed.

Lemma main_closes_session_once_witness :
  (5 <= len sample_argv)%Z
  /\ exists during,
       ssh_calls (snd (main utf8 (dropping_host quiet (py "Timeout opening channel."))
                         sample_argv initial))
       = SSHClient :: SetMissingHostKeyPolicy :: during ++ [Close]
       /\ ~ In Close during.
Proof.
  split; [vm_compute; discriminate |].
  apply (@main_closes_session_once utf8
           (dropping_host quiet (py "Timeout opening channel.")) sample_argv);
    [vm_compute; discriminate | reflexivity].
Defined.

(** A connection lost at the third command: the sequence stops there, the
    error is printed, the session is closed and the exit status is 1. *)
Example main_on_dropping_host :
  exit_code (fst (main utf8 (dropping_host quiet (py "Timeout opening channel."))
                       sample_argv initial)) = 1%Z
  /\ ssh_calls (snd (main utf8 (dropping_host quiet (py "Timeout opening channel."))
                          sample_argv initial))
     = [SSHClient; SetMissingHostKeyPolicy;
        Connect (py "10.0.0.1") (py "root") (py "secret") 30;
        ExecCommand (py "apt update && DEBIAN_FRONTEND=noninteractive apt upgrade -y 2>&1 | tail -20") 600;
        ExecCommand (py "curl -fsSL https://deb.nodesource.com/setup_20.x | bash - 2>&1 | tail -5") 120;
        ExecCommand (py "apt install -y nodejs 2>&1 | tail -5") 120;
        Close]
  /\ last (printed (snd (main utf8 (dropping_host quiet (py "Timeout opening channel."))
                              sample_argv initial))) []
     = LF :: py "Error: Timeout opening channel.".
Proof. vm_compute. repeat split. Qed.

(** ** [main]: every way it can end *)

Lemma firstn_next {A} (l : list A) (k : nat) (x : A) :
  nth_error l k = Some x -> firstn (S k) l = firstn k l ++ [x].
Proof.
  revert k. induction l as [| a l IH]; intros [| k] H; try discriminate H.
  - injection H as ->. destruct l; reflexivity.
  - change (firstn (S (S k)) (a :: l)) with (a :: firstn (S k) l).
    rewrite (IH k H). reflexivity.
Qed.

(** X9: with its four arguments and whatever the host does, when the
    standard output can encode the host name the calls of [main] on the SSH
    client are the creation of the client, the host-key policy, the
    connection attempt, an initial segment of the provisioning order and
    [close]: no command is skipped, repeated or dispatched out of order.
    When it cannot, the [print] of line 53 raises before the client is
    created and [main] makes no call at all. *)
Theorem main_dispatches_initial_segment
        out ssh script HOST USER PASSWORD GITHUB_REPO rest :
  exists k,
    ssh_calls (snd (main out ssh
                         (script :: HOST :: USER :: PASSWORD :: GITHUB_REPO :: rest)
                         initial))
    = if encodable out HOST then
        [SSHClient; SetMissingHostKeyPolicy; Connect HOST USER PASSWORD 30]
        ++ map exec_event (firstn k (provisioning_order GITHUB_REPO))
        ++ [Close]
      else [].
Proof.
  destruct (main_outcome out ssh script HOST USER PASSWORD GITHUB_REPO rest)
    as [[HH E]
       | [(HH & msg & _ & E)
         | [(HH & p & _ & _ & E)
           | (HH & k & ct & msg & p & _ & Hk & _ & _ & E)]]];
    cbv zeta in E; rewrite E, HH; clear E.
  - exists 0. reflexivity.
  - exists 0. rewrite aborted_calls. reflexivity.
  - exists 19. reflexivity.
  - cbv zeta in Hk. rewrite aborted_calls.
    destruct (encodable out (fst ct)).
    + exists (S k). rewrite (firstn_next _ _ Hk), map_app.
      rewrite <- !app_assoc. reflexivity.
    + exists k. rewrite app_nil_r, <- !app_assoc. reflexivity.
Qed.

(** X10: for any arguments, any standard output and any host, [main]
    ends in one of three ways: it returns, it exits through [sys.exit(1)],
    or the encoding error of one of its own [print] calls leaves it.  A
    failure of the SSH library never leaves [main], and the exit status of
    the process is 0 or 1. *)
Theorem main_returns_or_exits_1 (out : console) (ssh : remote) (argv : list str) :
  (fst (main out ssh argv initial) = Normal tt
   \/ fst (main out ssh argv initial) = Raised (SystemExit 1)
   \/ exists x, encodable out x = false
                /\ fst (main out ssh argv initial)
                   = Raised (Exception (encode_error out x)))
  /\ (exit_code (fst (main out ssh argv initial)) = 0%Z
      \/ exit_code (fst (main out ssh argv initial)) = 1%Z).
Proof.
  assert (H : fst (main out ssh argv initial) = Normal tt
              \/ fst (main out ssh argv initial) = Raised (SystemExit 1)
              \/ exists x, encodable out x = false
                           /\ fst (main out ssh argv initial)
                              = Raised (Exception (encode_error out x))).
  { destruct (len argv <? 5)%Z eqn:Hlen.
    - right. left. rewrite (main_too_few_arguments out ssh argv Hlen). reflexivity.
    - destruct argv as [| script [| HOST [| USER [| PASSWORD [| GITHUB_REPO rest]]]]];
        try discriminate Hlen.
      destruct (main_outcome out ssh script HOST USER PASSWORD GITHUB_REPO rest)
        as [[HH E]
           | [(_ & msg & _ & E)
             | [(_ & p & _ & _ & E) | (_ & k & ct & msg & p & _ & _ & _ & _ & E)]]];
        cbv zeta in E; rewrite E; clear E.
      + right. right. eexists. split; [| reflexivity].
        rewrite encodable_connecting. exact HH.
      + right. destruct (aborted_ending out msg
                           [str_mul (py "=") 50;
                            py "Claude Dev Hub - Remote Server Setup";
                            str_mul (py "=") 50;
                            LF :: py "Connecting to " ++ HOST ++ py "..."]
                           [SSHClient; SetMissingHostKeyPolicy;
                            Connect HOST USER PASSWORD 30])
          as [[Hexit _] | Hx]; auto.
      + left. reflexivity.
      + right. match goal with
               | |- context [aborted out msg p ?calls] =>
                   destruct (aborted_ending out msg p calls) as [[Hexit _] | Hx]
               end; auto. }
  split; [exact H |].
  destruct H as [H | [H | (x & _ & H)]]; rewrite H; auto.
Qed.

(** X11: with its four arguments, [main] ends with exit status 0
    exactly when the standard output can encode the host name, the
    connection is accepted and no command of the run raises; the exit
    statuses of the commands play no part. *)
Theorem main_succeeds_iff out ssh script HOST USER PASSWORD GITHUB_REPO rest :
  exit_code (fst (main out ssh
                       (script :: HOST :: USER :: PASSWORD :: GITHUB_REPO :: rest)
                       initial)) = 0%Z
  <-> encodable out HOST = true
      /\ connect_result ssh HOST USER PASSWORD 30 = None
      /\ run_dispatched out ssh
           [SSHClient; SetMissingHostKeyPolicy; Connect HOST USER PASSWORD 30]
           (provisioning_order GITHUB_REPO).
Proof.
  destruct (main_outcome out ssh script HOST USER PASSWORD GITHUB_REPO rest)
    as [[HH E]
       | [(HH & msg & Hc & E)
         | [(HH & p & Hc & Hall & E)
           | (HH & k & ct & msg & p & Hc & Hk & _ & Hraise & E)]]];
    cbv zeta in E; rewrite E; clear E.
  - cbn [fst exit_code]. split; [discriminate |]. intros [H _]. congruence.
  - rewrite aborted_exit_code. split; [discriminate |]. intros (_ & H & _). congruence.
  - cbn [fst exit_code]. split; auto.
  - rewrite aborted_exit_code. split; [discriminate |]. intros (_ & _ & Hall).
    cbv zeta in Hk, Hraise. destruct (Hall k ct Hk) as [st Hst]. congruence.
Qed.

Lemma dispatched_before out ssh before (order : list (str * Z)) k j ct :
  run_dispatched out ssh before (firstn k order) ->
  j < k -> nth_error order j = Some ct ->
  exists exit_status,
    outcome_of out ssh (before ++ map exec_event (firstn j order)) ct
    = Normal exit_status.
Proof.
  intros H Hjk Hj.
  assert (Hj' : nth_error (firstn k order) j = Some ct).
  { rewrite nth_error_firstn.
    destruct (PeanoNat.Nat.ltb_spec j k); [exact Hj | lia]. }
  destruct (H j ct Hj') as [st Hst]. exists st.
  rewrite firstn_firstn in Hst.
  replace (Nat.min j k) with j in Hst by lia. exact Hst.
Qed.

(** X12: when the connection is accepted, the first [k] commands
    return and [exec_command] raises for the next one, [main] stops there:
    that command is the last call before [close], the last thing printed is
    the error with the message of the exception, and [main] exits with
    status 1.  (If the standard output cannot encode that message, the error
    line is not printed and its encoding error leaves [main].) *)
Theorem main_stops_at_first_failure
        out ssh script HOST USER PASSWORD GITHUB_REPO rest k ct msg :
  encodable out HOST = true ->
  connect_result ssh HOST USER PASSWORD 30 = None ->
  nth_error (provisioning_order GITHUB_REPO) k = Some ct ->
  run_dispatched out ssh
    [SSHClient; SetMissingHostKeyPolicy; Connect HOST USER PASSWORD 30]
    (firstn k (provisioning_order GITHUB_REPO)) ->
  encodable out (fst ct) = true ->
  exec_result ssh
    ([SSHClient; SetMissingHostKeyPolicy; Connect HOST USER PASSWORD 30]
     ++ map exec_event (firstn k (provisioning_order GITHUB_REPO)))
    (fst ct) (snd ct) = inr msg ->
  exists p,
    main out ssh (script :: HOST :: USER :: PASSWORD :: GITHUB_REPO :: rest) initial
    = if encodable out msg then
        (Raised (SystemExit 1),
         {| printed := p ++ [LF :: py "Error: " ++ msg];
            ssh_calls :=
              [SSHClient; SetMissingHostKeyPolicy; Connect HOST USER PASSWORD 30]
              ++ map exec_event (firstn (S k) (provisioning_order GITHUB_REPO))
              ++ [Close] |})
      else
        (Raised (Exception (encode_error out (LF :: py "Error: " ++ msg))),
         {| printed := p;
            ssh_calls :=
              [SSHClient; SetMissingHostKeyPolicy; Connect HOST USER PASSWORD 30]
              ++ map exec_event (firstn (S k) (provisioning_order GITHUB_REPO))
              ++ [Close] |}).
Proof.
  intros HH Hconn Hk Hbefore Hcmd Hexec.
  assert (Hraise : outcome_of out ssh
                     ([SSHClient; SetMissingHostKeyPolicy;
                       Connect HOST USER PASSWORD 30]
                      ++ map exec_event (firstn k (provisioning_order GITHUB_REPO)))
                     ct = Raised (Exception msg)).
  { unfold outcome_of.
    rewrite (@run_command_raises out ssh (fst ct) (snd ct)
               {| printed := [];
                  ssh_calls :=
                    [SSHClient; SetMissingHostKeyPolicy;
                     Connect HOST USER PASSWORD 30]
                    ++ map exec_event (firstn k (provisioning_order GITHUB_REPO)) |}
               msg Hcmd Hexec).
    reflexivity. }
  destruct (main_outcome out ssh script HOST USER PASSWORD GITHUB_REPO rest)
    as [[Hno _]
       | [(_ & msg' & Hc & _)
         | [(_ & p & _ & Hall & _)
           | (_ & k' & ct' & msg' & p & _ & Hk' & Hbefore' & Hraise' & E)]]];
    try congruence.
  - cbv zeta in Hall. destruct (Hall k ct Hk) as [st Hst]. congruence.
  - cbv zeta in Hk', Hbefore', Hraise', E.
    destruct (PeanoNat.Nat.lt_trichotomy k k') as [Hlt | [Heq | Hgt]].
    + destruct (@dispatched_before _ _ _ _ _ _ _ Hbefore' Hlt Hk) as [st Hst].
      congruence.
    + subst k'. assert (ct' = ct) by congruence. subst ct'.
      assert (msg' = msg) by congruence. subst msg'.
      exists p. rewrite E. unfold aborted.
      rewrite encodable_error_line, Hcmd, (firstn_next _ _ Hk), map_app.
      destruct (encodable out msg); rewrite <- !app_assoc; reflexivity.
    + destruct (@dispatched_before _ _ _ _ _ _ _ Hbefore Hgt Hk') as [st Hst].
      congruence.
Qed.

Lemma main_stops_at_first_failure_witness :
  exists p,
    main utf8 (dropping_host quiet (py "Timeout opening channel.")) sample_argv
         initial
    = (Raised (SystemExit 1),
       {| printed := p ++ [LF :: py "Error: Timeout opening channel."];
          ssh_calls :=
            [SSHClient; SetMissingHostKeyPolicy;
             Connect (py "10.0.0.1") (py "root") (py "secret") 30]
            ++ map exec_event
                 (firstn 3 (provisioning_order (py "https://github.com/user/repo.git")))
            ++ [Close] |}).
Proof.
  apply (@main_stops_at_first_failure utf8
           (dropping_host quiet (py "Timeout opening channel."))
           (py "setup_remote.py") (py "10.0.0.1") (py "root") (py "secret")
           (py "https://github.com/user/repo.git") [] 2
           (py "apt install -y nodejs 2>&1 | tail -5", 120%Z)
           (py "Timeout opening channel.")).
  - reflexivity.
  - reflexivity.
  - reflexivity.
  - intros j ct Hj.
    destruct j as [| [| j]];
      [ cbn [nth_error firstn provisioning_order] in Hj; injection Hj as <-;
        exists 0%Z; vm_compute; reflexivity
      | cbn [nth_error firstn provisioning_order] in Hj; injection Hj as <-;
        exists 0%Z; vm_compute; reflexivity
      | ].
    destruct j; discriminate Hj.
  - reflexivity.
  - reflexivity.
Defined.

(** X13: [main] reads [sys.argv[1]] to [sys.argv[4]] only: the script
    name and any argument after the fourth change nothing. *)
Theorem main_ignores_extra_arguments
        out ssh script script' HOST USER PASSWORD GITHUB_REPO rest :
  main out ssh (script :: HOST :: USER :: PASSWORD :: GITHUB_REPO :: rest) initial
  = main out ssh [script'; HOST; USER; PASSWORD; GITHUB_REPO] initial.
Proof.
  destruct (encodable out HOST) eqn:HH.
  - rewrite !main_enters_session by exact HH. reflexivity.
  - rewrite !main_host_unencodable by exact HH. reflexivity.
Qed.

(** X14: with its four arguments, [main] ends in one of three ways:
    it returns and the last five texts printed are the completion block with
    the address of the host; it exits through [sys.exit(1)] and the last
    text printed is an error line; or the encoding error of one of its own
    [print] calls leaves it. *)
Theorem main_last_words out ssh script HOST USER PASSWORD GITHUB_REPO rest :
  let run := main out ssh
                  (script :: HOST :: USER :: PASSWORD :: GITHUB_REPO :: rest)
                  initial in
  (fst run = Normal tt
   /\ exists p,
        printed (snd run)
        = p ++ [LF :: str_mul (py "=") 50;
                py "SETUP COMPLETE!";
                str_mul (py "=") 50;
                LF :: py "Your Claude Dev Hub is running at: http://" ++ HOST;
                str_mul (py "=") 50])
  \/ (fst run = Raised (SystemExit 1)
      /\ exists p msg, printed (snd run) = p ++ [LF :: py "Error: " ++ msg])
  \/ (exists x, encodable out x = false
                /\ fst run = Raised (Exception (encode_error out x))).
Proof.
  intros run. unfold run.
  destruct (main_outcome out ssh script HOST USER PASSWORD GITHUB_REPO rest)
    as [[HH E]
       | [(_ & msg & _ & E)
         | [(_ & p & _ & _ & E) | (_ & k & ct & msg & p & _ & _ & _ & _ & E)]]];
    cbv zeta in E; rewrite E; clear E.
  - right. right. eexists. split; [| reflexivity].
    rewrite encodable_connecting. exact HH.
  - right.
    match goal with
    | |- context [aborted out msg ?p ?calls] =>
        destruct (aborted_ending out msg p calls) as [[Hexit Hp] | Hx]
    end.
    + left. split; [exact Hexit |]. eexists. exists msg. exact Hp.
    + right. exact Hx.
  - left. split; [reflexivity |]. exists p. reflexivity.
  - right.
    match goal with
    | |- context [aborted out msg ?p ?calls] =>
        destruct (aborted_ending out msg p calls) as [[Hexit Hp] | Hx]
    end.
    + left. split; [exact Hexit |]. eexists. exists msg. exact Hp.
    + right. exact Hx.
Qed.
